(** * The LLM code-deployment agent: a shallow embedding of [helpers.py]

    The pipeline of [process_request] (generate, acquire the repository,
    publish, enable hosting, notify) is embedded as a state-and-exception
    monad over a [world] holding the local file system, the Python heap
    (for the one dictionary that is mutated in place), the state of the
    GitHub client, a request counter, and a chronological trace of every
    externally visible action.

    The external parties are not part of the repository.  Library functions
    ([base64.b64decode], [json.loads]), the generation service and the HTTP
    peers are taken as an [environment] of oracles; the PyGithub client is an
    interface ([GithubClient]) with a reference instance [Hub.client] that
    follows the contents API of the store (create refuses an existing path,
    update is conditional on the blob hash).

    The local platform is POSIX with a UTF-8 locale: text files are
    encoded in UTF-8, a newline is written as it is, and file names are
    compared byte by byte.  A Python [str] is represented by its UTF-8
    bytes; a string of the model that is not valid UTF-8 stands for text
    with lone surrogates, which no text file can hold.  Each task directory
    holds regular files only, all of them writable. *)

From Stdlib Require Import ZArith Lia.
From stdpp Require Import base option list strings gmap fin_maps pretty.

Local Open Scope string_scope.
Local Open Scope Z_scope.
Local Open Scope list_scope.

(** ** Python values and exceptions *)

(** The exceptions that the modelled calls can raise.  [GithubException]
    carries the HTTP status PyGithub attaches to it ([e.status]);
    [RequestException] carries its message (it is printed by the notifier). *)
Inductive exn : Type :=
  | ValueError
  | TypeError
  | AttributeError
  | KeyError
  | IndexError
  | FileNotFoundError
  | JSONDecodeError
  | BinasciiError
  | OpenAIError
  | UnicodeEncodeError
  | UnicodeDecodeError
  | RequestException (msg : string)
  | GithubException (status : Z).

Inductive result (A : Type) : Type :=
  | Ok (a : A)
  | Raise (e : exn).
Arguments Ok {A} a.
Arguments Raise {A} e.

(** Scalar Python values, as they arrive in a decoded JSON request body. *)
Inductive pyval : Type :=
  | PNone
  | PBool (b : bool)
  | PInt (z : Z)
  | PStr (s : string).

(** Python truthiness ([if x:], [not x]). *)
Definition truthy (v : pyval) : bool :=
  match v with
  | PNone => false
  | PBool b => b
  | PInt z => negb (z =? 0)
  | PStr EmptyString => false
  | PStr (String _ _) => true
  end.

(** [d.get(k)] on a dictionary: [None] when the key is absent. *)
Definition dict_get (d : gmap string pyval) (k : string) : pyval :=
  default PNone (d !! k).

(** Values produced by [json.loads] (floats are not needed here). *)
Local Unset Elimination Schemes.
Inductive json : Type :=
  | JNull
  | JBool (b : bool)
  | JNumber (z : Z)
  | JString (s : string)
  | JArray (items : list json)
  | JObject (fields : list (string * json)).
Local Set Elimination Schemes.

Fixpoint assoc (k : string) (kvs : list (string * json)) : option json :=
  match kvs with
  | [] => None
  | (k', v) :: rest => if String.eqb k k' then Some v else assoc k rest
  end.

(** [e.status] inside an [except Exception as e] handler: only a
    [GithubException] has the attribute. *)
Definition exn_status (e : exn) : option Z :=
  match e with
  | GithubException s => Some s
  | _ => None
  end.

Definition nl : string := String (Ascii.ascii_of_nat 10) EmptyString.
Definition dquote : string := String (Ascii.ascii_of_nat 34) EmptyString.
Definition comma : Ascii.ascii := Ascii.ascii_of_nat 44.

(** [s.split(",", 1)]: at most one split, at the first separator. *)
Fixpoint split1 (sep : Ascii.ascii) (s : string) : list string :=
  match s with
  | EmptyString => [EmptyString]
  | String c rest =>
      if Ascii.eqb c sep then [EmptyString; rest]
      else match split1 sep rest with
           | h :: t => String c h :: t
           | [] => [String c EmptyString]
           end
  end.

(** Whether a character occurs in a string. *)
Fixpoint occurs (c : Ascii.ascii) (s : string) : bool :=
  match s with
  | EmptyString => false
  | String c' rest => Ascii.eqb c' c || occurs c rest
  end.


(** *** File names and text *)

Definition slash : Ascii.ascii := Ascii.ascii_of_nat 47.
Definition nul : Ascii.ascii := Ascii.ascii_of_nat 0.
Definition cr : Ascii.ascii := Ascii.ascii_of_nat 13.
Definition lf : Ascii.ascii := Ascii.ascii_of_nat 10.

Definition byte_in (lo hi : N) (c : Ascii.ascii) : bool :=
  ((lo <=? Ascii.N_of_ascii c) && (Ascii.N_of_ascii c <=? hi))%N.

(** The second byte a three-byte and a four-byte sequence may have after
    the lead byte [a] (no overlong forms, no surrogates, nothing above
    U+10FFFF). *)
Definition second_of_three (a b : Ascii.ascii) : bool :=
  if byte_in 224 224 a then byte_in 160 191 b
  else if byte_in 237 237 a then byte_in 128 159 b
  else byte_in 128 191 b.

Definition second_of_four (a b : Ascii.ascii) : bool :=
  if byte_in 240 240 a then byte_in 144 191 b
  else if byte_in 244 244 a then byte_in 128 143 b
  else byte_in 128 191 b.

(** Well-formed UTF-8: what the strict codec decodes, and, for the bytes
    that represent a [str], what it can encode. *)
Fixpoint valid_utf8 (s : string) : bool :=
  match s with
  | EmptyString => true
  | String a r1 =>
      if byte_in 0 127 a then valid_utf8 r1
      else
        match r1 with
        | EmptyString => false
        | String b r2 =>
            if byte_in 194 223 a then byte_in 128 191 b && valid_utf8 r2
            else
              match r2 with
              | EmptyString => false
              | String c r3 =>
                  if byte_in 224 239 a then
                    second_of_three a b && byte_in 128 191 c && valid_utf8 r3
                  else
                    match r3 with
                    | EmptyString => false
                    | String d r4 =>
                        if byte_in 240 244 a then
                          second_of_four a b && byte_in 128 191 c
                          && byte_in 128 191 d && valid_utf8 r4
                        else false
                    end
              end
        end
  end.

(** A name that denotes a file directly inside the directory it is joined
    to: not empty, without a separator or a null byte, neither [.] nor
    [..], encodable, and within the 255 bytes a file name may have. *)
Definition plain_name (n : string) : bool :=
  negb (String.eqb n EmptyString)
  && negb (occurs slash n) && negb (occurs nul n)
  && negb (String.eqb n ".") && negb (String.eqb n "..")
  && valid_utf8 n
  && (String.length n <=? 255)%nat.

(** Universal newlines, as a file opened for reading in text mode applies
    them: CR LF and a lone CR become LF. *)
Fixpoint universal_newlines (s : string) : string :=
  match s with
  | EmptyString => EmptyString
  | String c rest =>
      if Ascii.eqb c cr then
        match rest with
        | String c' rest' =>
            if Ascii.eqb c' lf then String lf (universal_newlines rest')
            else String lf (universal_newlines rest)
        | EmptyString => String lf EmptyString
        end
      else String c (universal_newlines rest)
  end.

(** ** External interfaces *)

(** What [response.json()] makes of a body. *)
Inductive json_reply : Type :=
  | NotJson
  | JsonOther
  | JsonObject (d : gmap string pyval).

Record response : Type := Response {
  status_code : Z;
  resp_body : json_reply;
}.

(** The body when it is a JSON object. *)
Definition resp_json (r : response) : option (gmap string pyval) :=
  match resp_body r with
  | JsonObject d => Some d
  | _ => None
  end.

Inductive json_body : Type :=
  | PagesSource (branch path : string)
  | DictBody (d : gmap string pyval).

Inductive http_request : Type :=
  | HttpPost (url : pyval) (body : json_body)
  | HttpGet (url : pyval).

(** Where the file system takes a path that is opened for writing: to a
    file directly inside a directory the world tracks, or elsewhere, with
    the outcome of the write there. *)
Inductive target : Type :=
  | InDir (dir file : string)
  | Elsewhere (outcome : result unit).

(** Oracles for what the repository only calls.  [http_send n r] is the
    outcome of the [n]-th HTTP request of the run when that request is [r];
    [path_target d name] is where the file system takes
    [os.path.join(d, name)] when [name] is not a plain file name (it has a
    separator, is [.] or [..], is absolute, is too long). *)
Record environment : Type := Environment {
  b64decode : string -> result string;
  json_loads : string -> result json;
  chat_completion : string -> result string;
  http_send : nat -> http_request -> result response;
  path_target : string -> string -> target;
}.

(** Where [os.path.join(d, name)] leads. *)
Definition resolve (E : environment) (d name : string) : target :=
  if plain_name name then InDir d name else path_target E d name.

Record repository : Type := Repository {
  repo_name : string;
  full_name : string;
  html_url : string;
}.

Record content_file : Type := ContentFile {
  cf_path : string;
  cf_sha : string;
}.

Record commit : Type := Commit {
  sha : string;
  message : string;
}.

(** The part of PyGithub the pipeline uses, over a client state [G].  Every
    call of the source passes the branch [main]; the interface is that of
    this one branch. *)
Class GithubClient (G : Type) : Type := {
  user_create_repo : string -> G -> result repository * G;
  user_get_repo : string -> G -> result repository * G;
  repo_create_file : repository -> string -> string -> string -> G -> result unit * G;
  repo_get_contents : repository -> string -> G -> result content_file * G;
  repo_update_file :
    repository -> string -> string -> string -> string -> G -> result unit * G;
  repo_get_commits : repository -> G -> result (list commit) * G;
}.

Inductive hub_call : Type :=
  | CreateRepo (name : string)
  | GetRepo (name : string)
  | CreateFile (repo path msg content : string)
  | GetContents (repo path : string)
  | UpdateFile (repo path msg content blob : string)
  | GetCommits (repo : string).

Inductive event : Type :=
  | EvChat (prompt : string)
  | EvHttp (req : http_request)
  | EvSleep (seconds : Z)
  | EvPrint (line : string)
  | EvHub (call : hub_call).

(** ** The world and the monad of the pipeline *)

(** [w_fs] maps a directory to its files (the task directories are flat:
    file names are plain names); [w_heap] holds the dictionaries that are
    passed by reference; [w_hub] is the state behind the GitHub client;
    [w_nreq] counts the HTTP requests issued so far; [w_trace] is
    chronological, oldest first. *)
Record world (G : Type) : Type := World {
  w_fs : gmap string (gmap string string);
  w_heap : gmap nat (gmap string pyval);
  w_hub : G;
  w_nreq : nat;
  w_trace : list event;
}.
Arguments World {G} _ _ _ _ _.
Arguments w_fs {G} _.
Arguments w_heap {G} _.
Arguments w_hub {G} _.
Arguments w_nreq {G} _.
Arguments w_trace {G} _.

(** Computations that read and update the world and may raise.  The world
    reached when an exception is raised is kept: side effects done before a
    Python exception stay done. *)
Definition M (G A : Type) : Type := world G -> result A * world G.

Definition ret {G A} (a : A) : M G A := fun w => (Ok a, w).

Definition raise {G A} (e : exn) : M G A := fun w => (Raise e, w).

Definition bind {G A B} (c : M G A) (k : A -> M G B) : M G B :=
  fun w =>
    match c w with
    | (Ok a, w') => k a w'
    | (Raise e, w') => (Raise e, w')
    end.

(** [try: c except ... as e: h e]; a handler that does not match re-raises. *)
Definition try_except {G A} (c : M G A) (h : exn -> M G A) : M G A :=
  fun w =>
    match c w with
    | (Ok a, w') => (Ok a, w')
    | (Raise e, w') => h e w'
    end.

Declare Scope pipeline_scope.
Delimit Scope pipeline_scope with pipeline.
Notation "'let*' x := c 'in' k" := (bind c (fun x => k))
  (at level 10, x name, c at level 100, k at level 200) : pipeline_scope.
Notation "c >> k" := (bind c (fun _ => k))
  (at level 100, k at level 200, right associativity) : pipeline_scope.
Local Open Scope pipeline_scope.

Fixpoint for_each {G A} (l : list A) (body : A -> M G unit) : M G unit :=
  match l with
  | [] => ret tt
  | x :: rest => body x >> for_each rest body
  end.

Definition log {G} (ev : event) : M G unit :=
  fun w => (Ok tt, World (w_fs w) (w_heap w) (w_hub w) (w_nreq w) (w_trace w ++ [ev])).

Definition set_fs {G} (fs : gmap string (gmap string string)) (w : world G) : world G :=
  World fs (w_heap w) (w_hub w) (w_nreq w) (w_trace w).

Definition set_heap {G} (h : gmap nat (gmap string pyval)) (w : world G) : world G :=
  World (w_fs w) h (w_hub w) (w_nreq w) (w_trace w).

Definition set_hub {G} (g : G) (w : world G) : world G :=
  World (w_fs w) (w_heap w) g (w_nreq w) (w_trace w).

Section Primitives.

Context {G : Type} `{GithubClient G}.
Variable E : environment.

(** *** Local file system *)

(** [os.makedirs(d, exist_ok=True)] *)
Definition os_makedirs (d : string) : M G unit :=
  fun w =>
    match w_fs w !! d with
    | Some _ => (Ok tt, w)
    | None => (Ok tt, set_fs (<[d := ∅]> (w_fs w)) w)
    end.

(** Storing [data] as the file [name] of directory [d], [name] being a
    plain file name: the write the operating system does once the path is
    resolved.  The file is created or replaced; the directory must exist. *)
Definition file_write (d name data : string) : M G unit :=
  fun w =>
    match w_fs w !! d with
    | Some files => (Ok tt, set_fs (<[d := <[name := data]> files]> (w_fs w)) w)
    | None => (Raise FileNotFoundError, w)
    end.

(** [with open(os.path.join(d, name), "rb") as f: f.read()], for [name] a
    plain file name: the bytes of the file. *)
Definition file_read (d name : string) : M G string :=
  fun w =>
    match w_fs w !! d with
    | Some files =>
        match files !! name with
        | Some data => (Ok data, w)
        | None => (Raise FileNotFoundError, w)
        end
    | None => (Raise FileNotFoundError, w)
    end.

(** [with open(os.path.join(d, name), "r") as f: f.read()], for [name] a
    plain file name: the bytes are decoded and the newlines translated. *)
Definition file_read_text (d name : string) : M G string :=
  fun w =>
    match file_read d name w with
    | (Ok bytes, w') =>
        if valid_utf8 bytes then (Ok (universal_newlines bytes), w')
        else (Raise UnicodeDecodeError, w')
    | (Raise e, w') => (Raise e, w')
    end.

(** [os.listdir(d)]; Python leaves the order of the names open, here it
    is the order of the map. *)
Definition os_listdir (d : string) : M G (list string) :=
  fun w =>
    match w_fs w !! d with
    | Some files => (Ok ((map_to_list files).*1), w)
    | None => (Raise FileNotFoundError, w)
    end.

(** *** Heap of dictionaries *)

Definition new_dict (d : gmap string pyval) : M G nat :=
  fun w =>
    let l := fresh (dom (w_heap w)) in
    (Ok l, set_heap (<[l := d]> (w_heap w)) w).

(** [payload.get(k)] *)
Definition ref_get (l : nat) (k : string) : M G pyval :=
  fun w =>
    match w_heap w !! l with
    | Some d => (Ok (dict_get d k), w)
    | None => (Raise AttributeError, w)
    end.

(** [del payload[k]] *)
Definition ref_del (l : nat) (k : string) : M G unit :=
  fun w =>
    match w_heap w !! l with
    | Some d =>
        match d !! k with
        | Some _ => (Ok tt, set_heap (<[l := delete k d]> (w_heap w)) w)
        | None => (Raise KeyError, w)
        end
    | None => (Raise AttributeError, w)
    end.

(** The dictionary behind a reference, as a call serialises it. *)
Definition ref_read (l : nat) : M G (gmap string pyval) :=
  fun w =>
    match w_heap w !! l with
    | Some d => (Ok d, w)
    | None => (Raise AttributeError, w)
    end.

(** *** External calls: each is logged, then answered by its oracle *)

Definition time_sleep (seconds : Z) : M G unit := log (EvSleep seconds).

Definition print (line : string) : M G unit := log (EvPrint line).

Definition http (req : http_request) : M G response :=
  fun w =>
    (http_send E (w_nreq w) req,
     World (w_fs w) (w_heap w) (w_hub w) (S (w_nreq w)) (w_trace w ++ [EvHttp req])).

Definition requests_post (url : pyval) (body : json_body) : M G response :=
  http (HttpPost url body).

Definition requests_get (url : pyval) : M G response :=
  http (HttpGet url).

(** [client.chat.completions.create(...)] followed by
    [response.choices[0].message.content] *)
Definition chat_create (prompt : string) : M G string :=
  log (EvChat prompt) >> fun w => (chat_completion E prompt, w).

Definition hub_op {A} (call : hub_call) (op : G -> result A * G) : M G A :=
  log (EvHub call) >>
  fun w => let '(r, g) := op (w_hub w) in (r, set_hub g w).

Definition hub_create_repo (name : string) : M G repository :=
  hub_op (CreateRepo name) (user_create_repo name).

Definition hub_get_repo (name : string) : M G repository :=
  hub_op (GetRepo name) (user_get_repo name).

Definition hub_create_file (r : repository) (path msg content : string) : M G unit :=
  hub_op (CreateFile (repo_name r) path msg content) (repo_create_file r path msg content).

Definition hub_get_contents (r : repository) (path : string) : M G content_file :=
  hub_op (GetContents (repo_name r) path) (repo_get_contents r path).

Definition hub_update_file (r : repository) (path msg content blob : string) : M G unit :=
  hub_op (UpdateFile (repo_name r) path msg content blob)
         (repo_update_file r path msg content blob).

Definition hub_get_commits (r : repository) : M G (list commit) :=
  hub_op (GetCommits (repo_name r)) (repo_get_commits r).

End Primitives.

(** ** The pipeline of [helpers.py] *)

(** The decoded JSON body of a task request ([data] in [process_request]). *)
Record task_request : Type := TaskRequest {
  task : string;
  brief : string;
  attachments : list (gmap string pyval);
  evaluation_url : pyval;
  nonce : pyval;
  round : Z;
  email : pyval;
}.

Definition unlines (ls : list string) : string :=
  String.concat EmptyString (map (fun l => l +:+ nl) ls).

(** The f-string of [generate_app], lines 68-80. *)
Definition base_prompt (brief : string) : string :=
  nl +:+ unlines [
    "You are an expert web developer. Your task is to build a single-page web application based on the following brief:";
    EmptyString;
    "**Brief:** " +:+ brief;
    EmptyString;
    "**Instructions:**";
    "1.  Create a single `index.html` file.";
    "2.  You can use HTML, CSS, and JavaScript.";
    "3.  If CSS or JavaScript is needed, embed it directly into the `index.html` file.";
    "4.  The application should be self-contained in this single file.";
    "5.  Do not use any external libraries unless specified in the brief.";
    "6.  The output should be a JSON object with a single key " +:+ dquote +:+ "html"
      +:+ dquote +:+ " and the value as the complete HTML code."
  ].

(** The text appended to the prompt at line 84. *)
Definition revision_context (existing_html : string) : string :=
  nl +:+ "**Existing HTML (for revision):**" +:+ nl +:+ "```html" +:+ nl
     +:+ existing_html +:+ nl +:+ "```".

Definition fallback_html : string :=
  "<html><body>Error generating content.</body></html>".

(** The f-string of [upload_files_to_repo], lines 135-149. *)
Definition readme_content (task_id : string) : string :=
  nl +:+ unlines [
    "# " +:+ task_id;
    EmptyString;
    "## Summary";
    "This project is an auto-generated web application based on a provided brief.";
    EmptyString;
    "## Setup";
    "To run this application, simply open the `index.html` file in your web browser.";
    EmptyString;
    "## Code Explanation";
    "The `index.html` file contains the entire application, including the HTML structure, CSS styling, and JavaScript logic.";
    EmptyString;
    "## License";
    "This project is licensed under the MIT License."
  ].

Section Program.

Context {G : Type} `{GithubClient G}.
Variable E : environment.

Definition lift {A} (r : result A) : M G A := fun w => (r, w).

(** [with open(os.path.join(d, name), "wb") as f: f.write(data)] for a
    name that comes with the request: the path is joined and opened as it
    is, so the write goes where the file system takes the path. *)
Definition open_wb (d name data : string) : M G unit :=
  match resolve E d name with
  | InDir d' name' => file_write d' name' data
  | Elsewhere outcome => lift outcome
  end.

(** The body of the attachment loop, lines 60-66. *)
Definition save_attachment (task_dir : string) (attachment : gmap string pyval)
  : M G unit :=
  let file_name := dict_get attachment "name" in
  let data_uri := dict_get attachment "url" in
  if truthy file_name && truthy data_uri then
    match data_uri with
    | PStr uri =>
        match split1 comma uri with
        | [header; encoded] =>
            let* data := lift (b64decode E encoded) in
            match file_name with
            | PStr name => open_wb task_dir name data
            | _ => raise TypeError
            end
        | _ => raise ValueError
        end
    | _ => raise AttributeError
    end
  else ret tt.

(** [output.get("html", default)] on the value [json.loads] returned: only
    a JSON object is a [dict]. *)
Definition json_get (output : json) (k : string) (dflt : json) : M G json :=
  match output with
  | JObject fields => ret (default dflt (assoc k fields))
  | _ => raise AttributeError
  end.

(** [with open(path, "w") as f: f.write(v)] for a plain file name:
    opening truncates the file, then writing anything but a [str] raises
    [TypeError], and so does, with [UnicodeEncodeError], a [str] that
    cannot be encoded. *)
Definition file_write_text (d name : string) (v : json) : M G unit :=
  match v with
  | JString s =>
      if valid_utf8 s then file_write d name s
      else file_write d name EmptyString >> raise UnicodeEncodeError
  | _ => file_write d name EmptyString >> raise TypeError
  end.

(** Lines 68-84: the instruction, extended on a revision round with the
    document read back from the task directory. *)
Definition build_prompt (brief task_dir : string) (round_num : Z) : M G string :=
  let prompt := base_prompt brief in
  if 1 <? round_num then
    let* existing_html := file_read_text task_dir "index.html" in
    ret (prompt +:+ revision_context existing_html)
  else ret prompt.

(** Lines 97-101: the [try] around the parsing of the reply. *)
Definition parse_html (content : string) : M G json :=
  try_except
    (let* output := lift (json_loads E content) in
     json_get output "html" (JString EmptyString))
    (fun e =>
       match e with
       | JSONDecodeError | KeyError => ret (JString fallback_html)
       | _ => raise e
       end).

Definition generate_app (brief : string) (attachments : list (gmap string pyval))
    (task_id : string) (round_num : Z) : M G unit :=
  let task_dir := "task-" +:+ task_id in
  os_makedirs task_dir >>
  for_each attachments (save_attachment task_dir) >>
  let* prompt := build_prompt brief task_dir round_num in
  let* content := chat_create E prompt in
  let* html_content := parse_html content in
  file_write_text task_dir "index.html" html_content.

Definition create_repo (task_id : string) : M G repository :=
  let repo_name := "task-" +:+ task_id in
  try_except (hub_create_repo repo_name)
    (fun e =>
       match exn_status e with
       | Some st => if st =? 422 then hub_get_repo repo_name else raise e
       | None => raise AttributeError
       end).

(** The body of the publish loop, lines 154-163 (the [except] is bare). *)
Definition upload_file (task_dir : string) (repo : repository) (file_name : string)
  : M G unit :=
  let* content := file_read task_dir file_name in
  try_except
    (let* existing_file := hub_get_contents repo file_name in
     hub_update_file repo (cf_path existing_file) ("Update " +:+ file_name)
                     content (cf_sha existing_file))
    (fun _ => hub_create_file repo file_name ("Add " +:+ file_name) content).

Definition upload_files_to_repo (task_id : string) (repo : repository) (round_num : Z)
  : M G commit :=
  let task_dir := "task-" +:+ task_id in
  (if round_num =? 1 then
     hub_create_file repo "LICENSE" "Add LICENSE" "MIT License" >>
     hub_create_file repo "README.md" "Add README" (readme_content task_id)
   else ret tt) >>
  let* names := os_listdir task_dir in
  for_each names (upload_file task_dir repo) >>
  let* commits := hub_get_commits repo in
  match commits with
  | c :: _ => ret c
  | [] => raise IndexError
  end.

(** [response.json().get('html_url')]: a body that is not JSON makes
    [json()] raise, a JSON value that is not an object has no [get]. *)
Definition response_html_url (r : response) : M G pyval :=
  match resp_body r with
  | JsonObject d => ret (dict_get d "html_url")
  | JsonOther => raise AttributeError
  | NotJson => raise JSONDecodeError
  end.

(** The request headers (token and media type) do not influence control
    flow and are left out of the logged request. *)
Definition enable_pages (repo : repository) : M G pyval :=
  let data := PagesSource "main" "/" in
  let url := PStr ("https://api.github.com/repos/" +:+ full_name repo +:+ "/pages") in
  let* response := requests_post E url data in
  if status_code response =? 201 then
    time_sleep 10 >> response_html_url response
  else
    let* response := requests_get E url in
    if status_code response =? 200 then response_html_url response
    else ret PNone.

(** The retry loop of [notify_evaluation], lines 207-217, with [n] the
    iterations left of [range(4)].  The boolean says whether the body hit
    its [return]. *)
Fixpoint notify_attempts (n : nat) (url : pyval) (payload : nat) (delay : Z)
  : M G unit :=
  match n with
  | O => ret tt
  | S n' =>
      let* returned :=
        try_except
          (let* body := ref_read payload in
           let* response := requests_post E url (DictBody body) in
           if status_code response =? 200 then
             print "Evaluation notification sent successfully." >> ret true
           else ret false)
          (fun e =>
             match e with
             | RequestException msg =>
                 print ("Error sending evaluation notification: " +:+ msg) >> ret false
             | _ => raise e
             end) in
      if returned : bool then ret tt
      else time_sleep delay >> notify_attempts n' url payload (delay * 2)
  end.

(** [payload] is a reference: the caller's dictionary itself. *)
Definition notify_evaluation (payload : nat) : M G unit :=
  let* url := ref_get payload "evaluation_url" in
  if negb (truthy url) then ret tt
  else
    ref_del payload "evaluation_url" >>
    notify_attempts 4 url payload 1.

(** Lines 28-31 of [process_request]. *)
Definition ensure_repository (task_id : string) (round_num : Z) : M G repository :=
  let repo_name := "task-" +:+ task_id in
  if round_num =? 1 then create_repo task_id
  else hub_get_repo repo_name.

Definition process_request (data : task_request) : M G unit :=
  let task_id := task data in
  let round_num := round data in
  generate_app (brief data) (attachments data) task_id round_num >>
  let* repo := ensure_repository task_id round_num in
  let* commit := upload_files_to_repo task_id repo round_num in
  let* pages_url := enable_pages repo in
  let* payload := new_dict (list_to_map [
      ("email", email data);
      ("task", PStr task_id);
      ("round", PInt round_num);
      ("nonce", nonce data);
      ("repo_url", PStr (html_url repo));
      ("commit_sha", PStr (sha commit));
      ("pages_url", pages_url);
      ("evaluation_url", evaluation_url data)
    ]) in
  notify_evaluation payload.

End Program.


(** ** Observations on traces *)

(** The URL [enable_pages] talks to. *)
Definition pages_url_of (repo : repository) : pyval :=
  PStr ("https://api.github.com/repos/" +:+ full_name repo +:+ "/pages").

Definition is_print (ev : event) : bool :=
  match ev with EvPrint _ => true | _ => false end.

(** A request fails when the transport raises or the answer does not
    carry the status the caller waits for. *)
Definition request_fails (expected : Z) (o : result response) : Prop :=
  match o with
  | Ok r => status_code r ≠ expected
  | Raise _ => True
  end.


(** The document of a task in the working directory, if any. *)
Definition document_of {G} (task_id : string) (w : world G) : option string :=
  match w_fs w !! ("task-" +:+ task_id) with
  | Some files => files !! "index.html"
  | None => None
  end.

(** An attachment the loop passes over: no name or no payload. *)
Definition skipped (a : gmap string pyval) : Prop :=
  truthy (dict_get a "name") = false \/ truthy (dict_get a "url") = false.

(** An attachment whose name is a string that is a plain file name and
    whose URL is a string [header,encoded] with a payload that decodes to
    [data]. *)
Definition well_formed (E : environment) (a : gmap string pyval)
    (name data : string) : Prop :=
  exists header encoded,
    dict_get a "name" = PStr name /\ plain_name name = true
    /\ dict_get a "url" = PStr (header +:+ String comma encoded)
    /\ occurs comma header = false
    /\ b64decode E encoded = Ok data.

Definition acceptable (E : environment) (a : gmap string pyval) : Prop :=
  skipped a \/ exists name data, well_formed E a name data.

(** Attachment [a] is not passed over, and its name, joined to directory
    [d], leads to the file [n] of directory [d0]. *)
Definition stored_at (E : environment) (d : string) (a : gmap string pyval)
    (d0 n : string) : Prop :=
  ~ skipped a
  /\ exists name, dict_get a "name" = PStr name /\ resolve E d name = InDir d0 n.

(** The name of the attachment, if it is a string and not empty, is a
    plain file name. *)
Definition plainly_named (a : gmap string pyval) : Prop :=
  forall name, dict_get a "name" = PStr name -> name <> EmptyString ->
    plain_name name = true.

(** The world with more events on its trace. *)
Definition logged {G} (evs : list event) (w : world G) : world G :=
  World (w_fs w) (w_heap w) (w_hub w) (w_nreq w) (w_trace w ++ evs).

(** The paths a trace creates and the paths it updates in the store. *)
Fixpoint created_paths (evs : list event) : list string :=
  match evs with
  | [] => []
  | EvHub (CreateFile _ path _ _) :: rest => path :: created_paths rest
  | _ :: rest => created_paths rest
  end.

Fixpoint updated_paths (evs : list event) : list string :=
  match evs with
  | [] => []
  | EvHub (UpdateFile _ path _ _ _) :: rest => path :: updated_paths rest
  | _ :: rest => updated_paths rest
  end.

(** The trace without console output. *)
Fixpoint strip_prints (evs : list event) : list event :=
  match evs with
  | [] => []
  | ev :: rest => if is_print ev then strip_prints rest else ev :: strip_prints rest
  end.

(** The HTTP requests of a trace, in order. *)
Fixpoint posts (evs : list event) : list http_request :=
  match evs with
  | [] => []
  | EvHttp req :: rest => req :: posts rest
  | _ :: rest => posts rest
  end.

(** A callback attempt fails when the transport raises or the status is
    not the success status 200 the notifier tests for. *)
Definition attempt_fails (o : result response) : Prop :=
  match o with
  | Ok r => status_code r ≠ 200
  | Raise (RequestException _) => True
  | Raise _ => False
  end.

(** The world after the [n]-th callback attempt and what it appended. *)
Definition after_attempt {G} (w : world G) (evs : list event) : world G :=
  World (w_fs w) (w_heap w) (w_hub w) (S (w_nreq w)) (w_trace w ++ evs).

(** The events of [n] failed attempts, console output left out. *)
Fixpoint backoff (n : nat) (req : http_request) (delay : Z) : list event :=
  match n with
  | O => []
  | S n' => EvHttp req :: EvSleep delay :: backoff n' req (delay * 2)
  end.

(** ** A reference GitHub: one account, one branch *)

Module Hub.

(** A repository holds the files at the head of [main] and the commits of
    that branch, newest first. *)
Record repo_state : Type := RepoState {
  files : gmap string string;
  commits : list commit;
}.

Definition handle (name : string) : repository :=
  Repository name ("owner/" +:+ name) ("https://github.com/owner/" +:+ name).

(** The blob hash of a file; an injective hash is idealised as the content
    itself. *)
Definition blob_sha (content : string) : string := content.

Definition push (msg : string) (path content : string) (rs : repo_state) : repo_state :=
  RepoState (<[path := content]> (files rs))
            (Commit ("c" +:+ pretty (length (commits rs))) msg :: commits rs).

(** [POST /user/repos]: 422 when the name is taken. *)
Definition create_repo (name : string) (h : gmap string repo_state)
  : result repository * gmap string repo_state :=
  match h !! name with
  | Some _ => (Raise (GithubException 422), h)
  | None => (Ok (handle name), <[name := RepoState ∅ []]> h)
  end.

Definition get_repo (name : string) (h : gmap string repo_state)
  : result repository * gmap string repo_state :=
  match h !! name with
  | Some _ => (Ok (handle name), h)
  | None => (Raise (GithubException 404), h)
  end.

(** [PUT contents] without a blob hash: creates the path, 422 when the path
    already exists. *)
Definition create_file (r : repository) (path msg content : string)
    (h : gmap string repo_state) : result unit * gmap string repo_state :=
  match h !! repo_name r with
  | Some rs =>
      match files rs !! path with
      | Some _ => (Raise (GithubException 422), h)
      | None => (Ok tt, <[repo_name r := push msg path content rs]> h)
      end
  | None => (Raise (GithubException 404), h)
  end.

Definition get_contents (r : repository) (path : string) (h : gmap string repo_state)
  : result content_file * gmap string repo_state :=
  match h !! repo_name r with
  | Some rs =>
      match files rs !! path with
      | Some content => (Ok (ContentFile path (blob_sha content)), h)
      | None => (Raise (GithubException 404), h)
      end
  | None => (Raise (GithubException 404), h)
  end.

(** [PUT contents] with a blob hash: replaces the path when the hash is
    that of the file at the head, 409 otherwise. *)
Definition update_file (r : repository) (path msg content blob : string)
    (h : gmap string repo_state) : result unit * gmap string repo_state :=
  match h !! repo_name r with
  | Some rs =>
      match files rs !! path with
      | Some current =>
          if String.eqb (blob_sha current) blob
          then (Ok tt, <[repo_name r := push msg path content rs]> h)
          else (Raise (GithubException 409), h)
      | None => (Raise (GithubException 404), h)
      end
  | None => (Raise (GithubException 404), h)
  end.

(** The commits of the branch; the store answers 409 for an empty
    repository. *)
Definition get_commits (r : repository) (h : gmap string repo_state)
  : result (list commit) * gmap string repo_state :=
  match h !! repo_name r with
  | Some rs =>
      match commits rs with
      | [] => (Raise (GithubException 409), h)
      | cs => (Ok cs, h)
      end
  | None => (Raise (GithubException 404), h)
  end.

#[global] Instance client : GithubClient (gmap string repo_state) := {
  user_create_repo := create_repo;
  user_get_repo := get_repo;
  repo_create_file := create_file;
  repo_get_contents := get_contents;
  repo_update_file := update_file;
  repo_get_commits := get_commits;
}.

(** The files of a repository, nothing when it does not exist. *)
Definition files_of (name : string) (h : gmap string repo_state) : gmap string string :=
  match h !! name with
  | Some rs => files rs
  | None => ∅
  end.

End Hub.

(** The state of the reference store: its repositories by name. *)
Abbreviation hubs := (gmap string Hub.repo_state).

(** What one iteration of the publish loop asks of the reference store for
    a file [f], given the content the store has for it. *)
Definition publish_events (repo f content : string) (current : option string)
  : list event :=
  match current with
  | Some cur =>
      [EvHub (GetContents repo f);
       EvHub (UpdateFile repo f ("Update " +:+ f) content (Hub.blob_sha cur))]
  | None =>
      [EvHub (GetContents repo f);
       EvHub (CreateFile repo f ("Add " +:+ f) content)]
  end.

Definition publish_message (f : string) (current : option string) : string :=
  match current with
  | Some _ => "Update " +:+ f
  | None => "Add " +:+ f
  end.

(** ** Closed instances for the examples *)

Definition b64_digit (c : Ascii.ascii) : option N :=
  let n := Ascii.N_of_ascii c in
  (if (65 <=? n) && (n <=? 90) then Some (n - 65)
   else if (97 <=? n) && (n <=? 122) then Some (n - 71)
   else if (48 <=? n) && (n <=? 57) then Some (n + 4)
   else if n =? 43 then Some 62
   else if n =? 47 then Some 63
   else None)%N.

Definition is_pad (c : Ascii.ascii) : bool := (Ascii.N_of_ascii c =? 61)%N.

(** [binascii.a2b_base64] as [base64.b64decode] calls it, without
    validation: a character outside the alphabet is discarded, a complete
    run of padding ends the decoding whatever follows, and input that ends
    inside a group of four is refused.  [quad_pos] is the position in the
    group, [leftchar] the bits not yet written, [pads] the padding seen
    since the last digit. *)
Fixpoint a2b_base64 (s : string) (quad_pos : nat) (leftchar : N) (pads : nat)
  : result string :=
  let emit (byte : N) (tail : result string) :=
    match tail with
    | Ok t => Ok (String (Ascii.ascii_of_N byte) t)
    | Raise e => Raise e
    end in
  match s with
  | EmptyString =>
      match quad_pos with
      | O => Ok EmptyString
      | _ => Raise BinasciiError
      end
  | String c rest =>
      if is_pad c then
        if (2 <=? quad_pos)%nat then
          if (4 <=? quad_pos + S pads)%nat then Ok EmptyString
          else a2b_base64 rest quad_pos leftchar (S pads)
        else a2b_base64 rest quad_pos leftchar pads
      else
        match b64_digit c with
        | None => a2b_base64 rest quad_pos leftchar pads
        | Some v =>
            match quad_pos with
            | 0%nat => a2b_base64 rest 1 v 0
            | 1%nat => emit (leftchar * 4 + v / 16)%N (a2b_base64 rest 2 (v mod 16)%N 0)
            | 2%nat => emit (leftchar * 16 + v / 4)%N (a2b_base64 rest 3 (v mod 4)%N 0)
            | _ => emit (leftchar * 64 + v)%N (a2b_base64 rest 0 0%N 0)
            end
        end
  end.

Fixpoint is_ascii (s : string) : bool :=
  match s with
  | EmptyString => true
  | String c rest => (Ascii.N_of_ascii c <? 128)%N && is_ascii rest
  end.

(** [base64.b64decode] on a [str]: text that is not ASCII is refused with
    [ValueError], the rest is decoded. *)
Definition b64decode_str (s : string) : result string :=
  if is_ascii s then a2b_base64 s 0 0%N 0 else Raise ValueError.

(** The document [{"html": "<h1>v1</h1>"}] a well-behaved service returns. *)
Definition html_reply : string :=
  "{" +:+ dquote +:+ "html" +:+ dquote +:+ ": " +:+ dquote +:+ "<h1>v1</h1>"
      +:+ dquote +:+ "}".

(** [json.loads] on the three documents the examples use; every other
    text is taken as malformed. *)
Definition json_loads_table (s : string) : result json :=
  if String.eqb s "{}" then Ok (JObject [])
  else if String.eqb s html_reply then Ok (JObject [("html", JString "<h1>v1</h1>")])
  else Raise JSONDecodeError.

(** Where a file system with the task directories [task-t1] and
    [task-t2] side by side takes three paths that are not plain names;
    every other one is taken as leading nowhere. *)
Definition paths_table (d name : string) : target :=
  if String.eqb name "./index.html" then InDir d "index.html"
  else if String.eqb name "../task-t2/index.html" then InDir "task-t2" "index.html"
  else if String.eqb name "../escape.txt" then Elsewhere (Ok tt)
  else Elsewhere (Raise FileNotFoundError).

(** An environment from a generation reply and an HTTP peer. *)
Definition env_of (reply : string) (peer : nat -> http_request -> result response)
  : environment :=
  Environment b64decode_str json_loads_table (fun _ => Ok reply) peer paths_table.

Definition peer_down : nat -> http_request -> result response :=
  fun _ _ => Raise (RequestException "connection refused").

Definition peer_ok : nat -> http_request -> result response :=
  fun _ _ => Ok (Response 200 NotJson).

(** Hosting is enabled on request and the callback is accepted. *)
Definition peer_live : nat -> http_request -> result response :=
  fun _ req =>
    match req with
    | HttpPost _ (PagesSource _ _) =>
        Ok (Response 201 (JsonObject {[ "html_url" := PStr "https://owner.github.io/task-t1/" ]}))
    | HttpPost _ (DictBody _) => Ok (Response 200 NotJson)
    | HttpGet _ =>
        Ok (Response 200 (JsonObject {[ "html_url" := PStr "https://owner.github.io/task-t1/" ]}))
    end.

(** A hosting API that refuses to enable and then cannot be reached. *)
Definition peer_pages_lost : nat -> http_request -> result response :=
  fun _ req =>
    match req with
    | HttpPost _ _ => Ok (Response 409 NotJson)
    | HttpGet _ => Raise (RequestException "timed out")
    end.

(** A hosting API that refuses to enable and reports no site. *)
Definition peer_pages_absent : nat -> http_request -> result response :=
  fun _ req =>
    match req with
    | HttpPost _ _ => Ok (Response 409 NotJson)
    | HttpGet _ => Ok (Response 404 NotJson)
    end.

(** A payload as [process_request] builds it, and a world holding it at
    reference 0. *)
Definition demo_payload : gmap string pyval :=
  list_to_map [
    ("email", PStr "a@b.c");
    ("task", PStr "t1");
    ("round", PInt 1);
    ("nonce", PStr "n0");
    ("evaluation_url", PStr "https://eval.example/cb")
  ].

Definition demo_world {G} (g : G) : world G :=
  World ∅ {[ 0%nat := demo_payload ]} g 0 [].

(** A world with nothing in it, and one where the repository of task
    [t1] already exists, empty. *)
Definition fresh_world : world (gmap string Hub.repo_state) :=
  World ∅ ∅ ∅ 0 [].


(** The working directory of task [t1] as round 1 leaves it. *)
Definition world_after_round1 : world (gmap string Hub.repo_state) :=
  World {[ "task-t1" := {[ "index.html" := "<h1>v1</h1>" ]} ]} ∅
        {[ "task-t1" := Hub.RepoState ∅ [] ]} 0 [].

Definition demo_request (round_num : Z) (atts : list (gmap string pyval))
  : task_request :=
  TaskRequest "t1" "a clock" atts (PStr "https://eval.example/cb") (PStr "n0")
              round_num (PStr "a@b.c").

(** Attachments: a well-formed one ([hi] in base64), one without a name,
    and one whose URL has no comma. *)
Definition attachment_ok : gmap string pyval :=
  list_to_map [("name", PStr "hi.txt"); ("url", PStr "data:text/plain;base64,aGk=")].

Definition attachment_unnamed : gmap string pyval :=
  list_to_map [("url", PStr "data:text/plain;base64,aGk=")].

Definition attachment_no_comma : gmap string pyval :=
  list_to_map [("name", PStr "hi.txt"); ("url", PStr "aGk=")].

(** ** The HTTP front door of [app.py] *)

(** What [request.get_json()] gives for the body of a request whose
    content type is JSON: a parse failure, a JSON value that is not an
    object (array, string, number, boolean, [null]), or an object, of which
    [secret] is [data.get('secret')] and [data] holds the fields that
    [process_request] reads.  A secret that is an array or an object
    compares unequal to every string, like a boolean of its truthiness. *)
Inductive flask_body : Type :=
  | BodyMalformed
  | BodyNotObject
  | BodyObject (secret : pyval) (data : task_request).

(** An inbound [POST /api/request]. *)
Record flask_request : Type := FlaskRequest {
  is_json : bool;
  get_json : flask_body;
}.

(** The body of a response: what [jsonify] made of a one-entry dictionary,
    or the error page of the framework. *)
Inductive reply : Type :=
  | JsonReply (key message : string)
  | ErrorPage.

(** [secret != os.environ.get('SHARED_SECRET')] *)
Definition differs_from_env (secret : pyval) (configured : option string) : bool :=
  match secret, configured with
  | PStr s, Some s' => negb (String.eqb s s')
  | PNone, None => false
  | _, _ => true
  end.

(** [handle_request]: the status and body of the response, and the
    background jobs started ([threading.Thread(target=process_request,
    args=(data,)).start()]); [configured] is the value of [SHARED_SECRET]
    in the process environment.  A body that does not parse makes
    [get_json] abort the request with 400; on a body that is not an object
    [data.get] raises [AttributeError], which the framework answers with
    500. *)
Definition handle_request (configured : option string) (request : flask_request)
  : (Z * reply) * list task_request :=
  if negb (is_json request) then
    ((400, JsonReply "error" "Invalid request: Content-Type must be application/json"), [])
  else
    match get_json request with
    | BodyMalformed => ((400, ErrorPage), [])
    | BodyNotObject => ((500, ErrorPage), [])
    | BodyObject secret data =>
        if negb (truthy secret) || differs_from_env secret configured then
          ((401, JsonReply "error" "Unauthorized"), [])
        else
          ((200, JsonReply "message" "Request received and is being processed"), [data])
    end.

(** ** Frames *)


(** The file [name] of directory [d], if any. *)
Definition file_of {G} (d name : string) (w : world G) : option string :=
  match w_fs w !! d with
  | Some files => files !! name
  | None => None
  end.

(** The payload [process_request] posts: what it builds, without the
    callback URL. *)
Definition notification_body (data : task_request) (repo : repository)
    (c : commit) (pages_url : pyval) : gmap string pyval :=
  list_to_map [
    ("email", email data);
    ("task", PStr (task data));
    ("round", PInt (round data));
    ("nonce", nonce data);
    ("repo_url", PStr (html_url repo));
    ("commit_sha", PStr (sha c));
    ("pages_url", pages_url)
  ].

(** ** More closed instances *)

(** A parser for a service that always answers [{"html": null}]. *)
Definition env_null_html : environment :=
  Environment b64decode_str (fun _ => Ok (JObject [("html", JNull)]))
              (fun _ => Ok "{}") peer_live paths_table.

(** A reply whose [html] is the string ["\ud800"], one lone surrogate. *)
Definition lone_surrogate : string :=
  String (Ascii.ascii_of_nat 237)
    (String (Ascii.ascii_of_nat 160) (String (Ascii.ascii_of_nat 128) EmptyString)).

Definition env_surrogate_html : environment :=
  Environment b64decode_str (fun _ => Ok (JObject [("html", JString lone_surrogate)]))
              (fun _ => Ok "{}") peer_live paths_table.

(** A generation service that cannot be reached. *)
Definition env_service_down : environment :=
  Environment b64decode_str json_loads_table (fun _ => Raise OpenAIError) peer_live
              paths_table.

(** A store that is out of service, and one whose updates always
    conflict. *)
Definition outage_client : GithubClient unit := {|
  user_create_repo := fun _ g => (Raise (GithubException 503), g);
  user_get_repo := fun _ g => (Raise (GithubException 503), g);
  repo_create_file := fun _ _ _ _ g => (Raise (GithubException 503), g);
  repo_get_contents := fun _ _ g => (Raise (GithubException 503), g);
  repo_update_file := fun _ _ _ _ _ g => (Raise (GithubException 503), g);
  repo_get_commits := fun _ g => (Raise (GithubException 503), g);
|}.

Definition conflict_client : GithubClient unit := {|
  user_create_repo := fun name g => (Ok (Hub.handle name), g);
  user_get_repo := fun name g => (Ok (Hub.handle name), g);
  repo_create_file := fun _ _ _ _ g => (Raise (GithubException 422), g);
  repo_get_contents := fun _ path g => (Ok (ContentFile path "stale"), g);
  repo_update_file := fun _ _ _ _ _ g => (Raise (GithubException 409), g);
  repo_get_commits := fun _ g => (Ok [Commit "c0" "init"], g);
|}.

(** A hosting API on which hosting is already enabled. *)
Definition peer_already_enabled : nat -> http_request -> result response :=
  fun _ req =>
    match req with
    | HttpPost _ _ => Ok (Response 409 NotJson)
    | HttpGet _ =>
        Ok (Response 200 (JsonObject {[ "html_url" := PStr "https://owner.github.io/task-t1/" ]}))
    end.

(** A hosting API that answers 201 with a JSON list. *)
Definition peer_created_list : nat -> http_request -> result response :=
  fun _ _ => Ok (Response 201 JsonOther).

(** A callback peer whose transport fails outside [requests]. *)
Definition peer_broken : nat -> http_request -> result response :=
  fun _ _ => Raise TypeError.

(** A callback peer that accepts the third attempt. *)
Definition peer_third : nat -> http_request -> result response :=
  fun n _ =>
    match n with
    | 2%nat => Ok (Response 200 NotJson)
    | _ => Ok (Response 503 NotJson)
    end.


Definition attachment_dot_index : gmap string pyval :=
  list_to_map [("name", PStr "./index.html"); ("url", PStr "data:text/html;base64,eW8=")].

(** A callback peer that accepts every request with 204 No Content. *)
Definition peer_no_content : nat -> http_request -> result response :=
  fun _ _ => Ok (Response 204 NotJson).

(** An attachment that overwrites [hi.txt] with [yo]. *)
Definition attachment_again : gmap string pyval :=
  list_to_map [("name", PStr "hi.txt"); ("url", PStr "data:text/plain;base64,eW8=")].

Definition demo_flask_request (secret : pyval) : flask_request :=
  FlaskRequest true (BodyObject secret (demo_request 1 [])).

(** * Verification *)

(** ** The notifier *)

Lemma strip_prints_app evs1 evs2 :
  strip_prints (evs1 ++ evs2) = strip_prints evs1 ++ strip_prints evs2.
Proof.
  induction evs1 as [|ev evs1 IH]; simpl; [done|].
  destruct (is_print ev); simpl; by rewrite IH.
Qed.

Lemma posts_app evs1 evs2 : posts (evs1 ++ evs2) = posts evs1 ++ posts evs2.
Proof.
  induction evs1 as [|ev evs1 IH]; simpl; [done|].
  destruct ev; simpl; by rewrite ?IH.
Qed.

Section Notifier.

Context {G : Type}.
Variable E : environment.


Lemma notify_attempts_step n url l d delay (w : world G) :
  w_heap w !! l = Some d ->
  let req := HttpPost url (DictBody d) in
  notify_attempts E (S n) url l delay w =
    match http_send E (w_nreq w) req with
    | Ok r =>
        if status_code r =? 200 then
          (Ok tt, after_attempt w
             [EvHttp req; EvPrint "Evaluation notification sent successfully."])
        else
          notify_attempts E n url l (delay * 2)
            (after_attempt w [EvHttp req; EvSleep delay])
    | Raise (RequestException msg) =>
        notify_attempts E n url l (delay * 2)
          (after_attempt w
             [EvHttp req;
              EvPrint ("Error sending evaluation notification: " +:+ msg);
              EvSleep delay])
    | Raise e => (Raise e, after_attempt w [EvHttp req])
    end.
Proof.
  intros Hl req. destruct w as [fs hp g k tr]; simpl in Hl.
  cbn [notify_attempts].
  unfold bind at 1, try_except, bind at 1, ref_read. simpl. rewrite Hl.
  unfold bind at 1, requests_post, http. simpl. fold req.
  destruct (http_send E k req) as [r|e]; simpl.
  - destruct (status_code r =? 200); simpl.
    + unfold bind, print, log, ret, after_attempt. simpl.
      by rewrite <- app_assoc.
    + unfold ret, bind, time_sleep, log, after_attempt. simpl.
      by rewrite <- app_assoc.
  - destruct e; try reflexivity.
    unfold bind, print, time_sleep, log, ret, after_attempt. simpl.
    by rewrite <- !app_assoc.
Qed.


(** Whatever the peer answers, the loop leaves files, heap and client
    alone, sends the same request each time, and sends it at most [n]
    times. *)
Lemma notify_attempts_run n url l d : forall delay (w : world G),
  w_heap w !! l = Some d ->
  exists r evs,
    notify_attempts E n url l delay w =
      (r, World (w_fs w) (w_heap w) (w_hub w)
                (w_nreq w + length (posts evs)) (w_trace w ++ evs))
    /\ posts evs = replicate (length (posts evs)) (HttpPost url (DictBody d))
    /\ (length (posts evs) <= n)%nat
    /\ (n <> O -> (1 <= length (posts evs))%nat).
Proof.
  induction n as [|n IH]; intros delay w Hl.
  - exists (Ok tt), []. simpl. rewrite Nat.add_0_r, app_nil_r.
    destruct w; repeat split; simpl; try done; lia.
  - rewrite (notify_attempts_step n url l d delay w Hl). cbv zeta.
    set (req := HttpPost url (DictBody d)).
    assert (Hstep : forall pre, posts pre = [req] ->
      exists r evs,
        notify_attempts E n url l (delay * 2) (after_attempt w pre) =
          (r, World (w_fs w) (w_heap w) (w_hub w)
                    (w_nreq w + length (posts evs)) (w_trace w ++ evs))
        /\ posts evs = replicate (length (posts evs)) req
        /\ (length (posts evs) <= S n)%nat
        /\ (S n <> O -> (1 <= length (posts evs))%nat)).
    { intros pre Hpre.
      destruct (IH (delay * 2) (after_attempt w pre) Hl)
        as (r & evs & Hrun & Hposts & Hlen & _).
      exists r, (pre ++ evs). rewrite Hrun. simpl.
      rewrite posts_app, Hpre, <- app_assoc. simpl.
      repeat split; try lia.
      - do 3 f_equal. lia.
      - f_equal. exact Hposts. }
    destruct (http_send E (w_nreq w) req) as [r|e].
    + destruct (status_code r =? 200).
      * exists (Ok tt), [EvHttp req; EvPrint "Evaluation notification sent successfully."].
        unfold after_attempt. simpl. repeat split; try lia.
        do 3 f_equal. lia.
      * by apply Hstep.
    + assert (Hraise : exists (r : result unit) evs,
        (Raise e, after_attempt w [EvHttp req]) =
          (r, World (w_fs w) (w_heap w) (w_hub w)
                    (w_nreq w + length (posts evs)) (w_trace w ++ evs))
        /\ posts evs = replicate (length (posts evs)) req
        /\ (length (posts evs) <= S n)%nat
        /\ (S n <> O -> (1 <= length (posts evs))%nat)).
      { exists (Raise e), [EvHttp req]. unfold after_attempt. simpl.
        repeat split; try lia. do 3 f_equal. lia. }
      destruct e; try exact Hraise. by apply Hstep.
Qed.

(** When every attempt fails the loop runs to its end and returns. *)
Lemma notify_attempts_all_fail n url l d : forall delay (w : world G),
  w_heap w !! l = Some d ->
  (forall i, (i < n)%nat ->
     attempt_fails (http_send E (w_nreq w + i) (HttpPost url (DictBody d)))) ->
  exists evs,
    notify_attempts E n url l delay w =
      (Ok tt, World (w_fs w) (w_heap w) (w_hub w) (w_nreq w + n) (w_trace w ++ evs))
    /\ strip_prints evs = backoff n (HttpPost url (DictBody d)) delay.
Proof.
  induction n as [|n IH]; intros delay w Hl Hfail.
  - exists []. simpl. rewrite Nat.add_0_r, app_nil_r. by destruct w.
  - rewrite (notify_attempts_step n url l d delay w Hl). cbv zeta.
    set (req := HttpPost url (DictBody d)) in *.
    assert (Hnext : forall pre,
      strip_prints pre = [EvHttp req; EvSleep delay] ->
      exists evs,
        notify_attempts E n url l (delay * 2) (after_attempt w pre) =
          (Ok tt, World (w_fs w) (w_heap w) (w_hub w)
                        (w_nreq w + S n) (w_trace w ++ evs))
        /\ strip_prints evs = backoff (S n) req delay).
    { intros pre Hpre.
      destruct (IH (delay * 2) (after_attempt w pre) Hl) as (evs & Hrun & Hevs).
      { intros i Hi.
        replace (w_nreq (after_attempt w pre) + i)%nat with (w_nreq w + S i)%nat
          by (simpl; lia).
        apply Hfail. lia. }
      exists (pre ++ evs). rewrite Hrun. simpl.
      rewrite strip_prints_app, Hpre, Hevs, <- app_assoc. split; [|done].
      do 3 f_equal. lia. }
    pose proof (Hfail O ltac:(lia)) as H0. rewrite Nat.add_0_r in H0.
    destruct (http_send E (w_nreq w) req) as [r|e]; simpl in H0.
    + destruct (Z.eqb_spec (status_code r) 200); [done|]. by apply Hnext.
    + destruct e; try done. by apply Hnext.
Qed.

(** A 200 answer to attempt [i], after [i] failures, ends the loop there. *)
Lemma notify_attempts_success url l d r200 : forall i n delay (w : world G),
  w_heap w !! l = Some d ->
  (i < n)%nat ->
  (forall j, (j < i)%nat ->
     attempt_fails (http_send E (w_nreq w + j) (HttpPost url (DictBody d)))) ->
  http_send E (w_nreq w + i) (HttpPost url (DictBody d)) = Ok r200 ->
  status_code r200 = 200 ->
  exists evs,
    notify_attempts E n url l delay w =
      (Ok tt, World (w_fs w) (w_heap w) (w_hub w) (w_nreq w + S i) (w_trace w ++ evs))
    /\ posts evs = replicate (S i) (HttpPost url (DictBody d)).
Proof.
  induction i as [|i IH]; intros n delay w Hl Hin Hfail Hok H200.
  - destruct n as [|n]; [lia|].
    rewrite (notify_attempts_step n url l d delay w Hl). cbv zeta.
    rewrite Nat.add_0_r in Hok. rewrite Hok, H200. simpl.
    exists [EvHttp (HttpPost url (DictBody d));
            EvPrint "Evaluation notification sent successfully."].
    split; [|reflexivity]. unfold after_attempt. simpl.
    do 3 f_equal. lia.
  - destruct n as [|n]; [lia|].
    rewrite (notify_attempts_step n url l d delay w Hl). cbv zeta.
    set (req := HttpPost url (DictBody d)) in *.
    assert (Hnext : forall pre, posts pre = [req] ->
      exists evs,
        notify_attempts E n url l (delay * 2) (after_attempt w pre) =
          (Ok tt, World (w_fs w) (w_heap w) (w_hub w)
                        (w_nreq w + S (S i)) (w_trace w ++ evs))
        /\ posts evs = replicate (S (S i)) req).
    { intros pre Hpre.
      destruct (IH n (delay * 2) (after_attempt w pre) Hl ltac:(lia))
        as (evs & Hrun & Hevs).
      { intros j Hj.
        replace (w_nreq (after_attempt w pre) + j)%nat with (w_nreq w + S j)%nat
          by (simpl; lia).
        apply Hfail. lia. }
      { replace (w_nreq (after_attempt w pre) + i)%nat with (w_nreq w + S i)%nat
          by (simpl; lia). done. }
      { done. }
      exists (pre ++ evs). rewrite Hrun. simpl.
      rewrite posts_app, Hpre, Hevs, <- app_assoc. split; [|done].
      do 3 f_equal. lia. }
    pose proof (Hfail O ltac:(lia)) as H0. rewrite Nat.add_0_r in H0.
    destruct (http_send E (w_nreq w) req) as [r|e]; simpl in H0.
    + destruct (Z.eqb_spec (status_code r) 200); [done|]. by apply Hnext.
    + destruct e; try done. by apply Hnext.
Qed.

(** What [notify_evaluation] does before its loop when the payload carries
    a callback URL: the entry is deleted from the dictionary behind the
    reference. *)
Lemma notify_evaluation_unfold l d url (w : world G) :
  w_heap w !! l = Some d ->
  d !! "evaluation_url" = Some url ->
  truthy url = true ->
  notify_evaluation E l w =
    notify_attempts E 4 url l 1
      (set_heap (<[l := delete "evaluation_url" d]> (w_heap w)) w).
Proof.
  intros Hl Hurl Ht.
  unfold notify_evaluation, bind at 1, ref_get. rewrite Hl.
  unfold dict_get. rewrite Hurl. simpl. rewrite Ht. simpl.
  unfold bind at 1, ref_del. by rewrite Hl, Hurl.
Qed.

(** With a callback URL in the payload, one run of [notify_evaluation]:
    which world it ends in and what it sent, for any behaviour of the
    peer. *)
Lemma notify_evaluation_run l d url (w : world G) :
  w_heap w !! l = Some d ->
  d !! "evaluation_url" = Some url ->
  truthy url = true ->
  let d' := delete "evaluation_url" d in
  exists r evs,
    notify_evaluation E l w =
      (r, World (w_fs w) (<[l := d']> (w_heap w)) (w_hub w)
                (w_nreq w + length (posts evs)) (w_trace w ++ evs))
    /\ posts evs = replicate (length (posts evs)) (HttpPost url (DictBody d'))
    /\ (1 <= length (posts evs) <= 4)%nat.
Proof.
  intros Hl Hurl Ht d'.
  rewrite (notify_evaluation_unfold l d url w Hl Hurl Ht). fold d'.
  set (w1 := set_heap (<[l := d']> (w_heap w)) w).
  assert (Hl1 : w_heap w1 !! l = Some d') by (simpl; apply lookup_insert_eq).
  destruct (notify_attempts_run 4 url l d' 1 w1 Hl1) as (r & evs & Hrun & Hp & Hle & Hge).
  exists r, evs. rewrite Hrun. repeat split; try done. by apply Hge.
Qed.

(** C4, as amended: for every payload carrying a callback URL,
    [notify_evaluation] makes at most 4 POST attempts; a response with
    status 200 to attempt [i], the earlier ones having failed, ends the
    retrying there with exactly [i + 1] POSTs sent (one POST when the first
    attempt succeeds); an attempt fails when [requests] raises or the
    status is anything but 200, another success status included; and when
    all 4 attempts fail, the attempts are separated by sleeps of 1, 2 and 4
    (a last sleep of 8 follows the fourth attempt) and the function returns
    without raising. *)
Theorem notify_evaluation_retry_policy l d url (w : world G) :
  w_heap w !! l = Some d ->
  d !! "evaluation_url" = Some url ->
  truthy url = true ->
  let req := HttpPost url (DictBody (delete "evaluation_url" d)) in
  exists r w' evs,
    notify_evaluation E l w = (r, w')
    /\ w_trace w' = w_trace w ++ evs
    /\ (length (posts evs) <= 4)%nat
    /\ (forall i r200, (i < 4)%nat ->
         (forall j, (j < i)%nat -> attempt_fails (http_send E (w_nreq w + j) req)) ->
         http_send E (w_nreq w + i) req = Ok r200 ->
         status_code r200 = 200 ->
         r = Ok tt /\ posts evs = replicate (S i) req)
    /\ ((forall i, (i < 4)%nat -> attempt_fails (http_send E (w_nreq w + i) req)) ->
         r = Ok tt
         /\ strip_prints evs =
              [EvHttp req; EvSleep 1; EvHttp req; EvSleep 2;
               EvHttp req; EvSleep 4; EvHttp req; EvSleep 8]).
Proof.
  intros Hl Hurl Ht req.
  destruct (notify_evaluation_run l d url w Hl Hurl Ht) as (r & evs & Hrun & Hp & Hlen).
  cbv zeta in Hrun. eexists r, _, evs. split; [exact Hrun|].
  split; [done|]. split; [lia|].
  rewrite (notify_evaluation_unfold l d url w Hl Hurl Ht) in Hrun.
  set (d' := delete "evaluation_url" d) in *.
  set (w1 := set_heap (<[l := d']> (w_heap w)) w) in *.
  assert (Hl1 : w_heap w1 !! l = Some d') by (simpl; apply lookup_insert_eq).
  split.
  - intros i r200 Hi Hfail Hok H200.
    destruct (notify_attempts_success url l d' r200 i 4 1 w1 Hl1 Hi Hfail Hok H200)
      as (evs' & Hrun' & Hposts).
    rewrite Hrun in Hrun'. injection Hrun' as Hr _ Htr.
    apply app_inv_head in Htr. by subst.
  - intros Hfail.
    destruct (notify_attempts_all_fail 4 url l d' 1 w1 Hl1 Hfail) as (evs' & Hrun' & Hevs).
    rewrite Hrun in Hrun'. injection Hrun' as Hr _ Htr.
    apply app_inv_head in Htr. by subst.
Qed.

(** C6: [notify_evaluation] sends nothing and returns at once, leaving the
    world as it was, when the payload carries no callback URL (entry
    absent, [None] or empty); otherwise every request it sends, and it
    sends at least one, is a POST to that URL whose body is the payload
    without the callback-URL entry. *)
Theorem notify_evaluation_body l d (w : world G) :
  w_heap w !! l = Some d ->
  (truthy (dict_get d "evaluation_url") = false ->
     notify_evaluation E l w = (Ok tt, w))
  /\ (forall url, d !! "evaluation_url" = Some url -> truthy url = true ->
       exists r w' evs,
         notify_evaluation E l w = (r, w')
         /\ w_trace w' = w_trace w ++ evs
         /\ (1 <= length (posts evs))%nat
         /\ posts evs =
              replicate (length (posts evs))
                        (HttpPost url (DictBody (delete "evaluation_url" d)))).
Proof.
  intros Hl. split.
  - intros Hf. unfold notify_evaluation, bind, ref_get. rewrite Hl, Hf. done.
  - intros url Hurl Ht.
    destruct (notify_evaluation_run l d url w Hl Hurl Ht) as (r & evs & Hrun & Hp & Hlen).
    cbv zeta in Hrun. eexists r, _, evs. split; [exact Hrun|].
    repeat split; try done. lia.
Qed.

(** C9: [notify_evaluation] mutates its argument.  For every payload with
    a callback URL, whether the call returns or raises, the dictionary
    behind the caller's reference no longer has the callback-URL entry,
    every other entry of it is as before, and no other object of the heap
    is touched. *)
Theorem notify_evaluation_mutates_payload l d url (w : world G) :
  w_heap w !! l = Some d ->
  d !! "evaluation_url" = Some url ->
  truthy url = true ->
  exists r w' d',
    notify_evaluation E l w = (r, w')
    /\ w_heap w' !! l = Some d'
    /\ d' !! "evaluation_url" = None
    /\ (forall k, k <> "evaluation_url" -> d' !! k = d !! k)
    /\ (forall l', l' <> l -> w_heap w' !! l' = w_heap w !! l').
Proof.
  intros Hl Hurl Ht.
  destruct (notify_evaluation_run l d url w Hl Hurl Ht) as (r & evs & Hrun & _).
  cbv zeta in Hrun. eexists r, _, (delete "evaluation_url" d).
  split; [exact Hrun|]. simpl. repeat split.
  - apply lookup_insert_eq.
  - apply lookup_delete_eq.
  - intros k Hk. by apply lookup_delete_ne.
  - intros l' Hl'. by apply lookup_insert_ne.
Qed.

End Notifier.

Lemma demo_payload_url :
  demo_payload !! "evaluation_url" = Some (PStr "https://eval.example/cb").
Proof. vm_compute. reflexivity. Qed.

Lemma notify_evaluation_retry_policy_witness :
  exists r w' evs,
    notify_evaluation (env_of "{}" peer_down) 0%nat (demo_world tt) = (r, w')
    /\ w_trace w' = evs
    /\ (length (posts evs) <= 4)%nat.
Proof.
  destruct (notify_evaluation_retry_policy (env_of "{}" peer_down) 0%nat demo_payload
              (PStr "https://eval.example/cb") (demo_world tt))
    as (r & w' & evs & Hrun & Htr & Hlen & _).
  - reflexivity.
  - vm_compute. reflexivity.
  - reflexivity.
  - exists r, w', evs. repeat split; assumption.
Defined.

(** C4, as stated, fails: a peer that answers the first attempt with the
    success status 204 is sent the notification four times. *)
Lemma notify_evaluation_retry_policy_counterexample :
  ~ (forall (E : environment) l d url resp r evs (w w' : world unit),
       w_heap w !! l = Some d ->
       d !! "evaluation_url" = Some url ->
       truthy url = true ->
       http_send E (w_nreq w) (HttpPost url (DictBody (delete "evaluation_url" d)))
         = Ok resp ->
       200 <= status_code resp < 300 ->
       notify_evaluation E l w = (r, w') ->
       w_trace w' = w_trace w ++ evs ->
       length (posts evs) = 1%nat).
Proof.
  intros Hall.
  pose (run := notify_evaluation (env_of "{}" peer_no_content) 0%nat (demo_world tt)).
  assert (Hone : length (posts (w_trace (snd run))) = 1%nat).
  { apply (Hall (env_of "{}" peer_no_content) 0%nat demo_payload
             (PStr "https://eval.example/cb") (Response 204 NotJson) (fst run)
             (w_trace (snd run)) (demo_world tt) (snd run)).
    - reflexivity.
    - vm_compute. reflexivity.
    - reflexivity.
    - reflexivity.
    - simpl. lia.
    - apply surjective_pairing.
    - reflexivity. }
  vm_compute in Hone. discriminate Hone.
Qed.

Lemma notify_evaluation_body_witness :
  exists r w' evs,
    notify_evaluation (env_of "{}" peer_ok) 0%nat (demo_world tt) = (r, w')
    /\ w_trace w' = evs
    /\ (1 <= length (posts evs))%nat
    /\ posts evs =
         replicate (length (posts evs))
                   (HttpPost (PStr "https://eval.example/cb")
                             (DictBody (delete "evaluation_url" demo_payload))).
Proof.
  destruct (notify_evaluation_body (env_of "{}" peer_ok) 0%nat demo_payload
              (demo_world tt)) as [_ Hsend].
  - reflexivity.
  - destruct (Hsend (PStr "https://eval.example/cb")) as (r & w' & evs & Hrun & Htr & Hp).
    + vm_compute. reflexivity.
    + reflexivity.
    + exists r, w', evs. split; [exact Hrun|]. split; [exact Htr|exact Hp].
Defined.

Lemma notify_evaluation_mutates_payload_witness :
  exists r w' d',
    notify_evaluation (env_of "{}" peer_ok) 0%nat (demo_world tt) = (r, w')
    /\ w_heap w' !! 0%nat = Some d'
    /\ d' !! "evaluation_url" = None
    /\ (forall k, k <> "evaluation_url" -> d' !! k = demo_payload !! k)
    /\ (forall l', l' <> 0%nat -> w_heap w' !! l' = w_heap (demo_world tt) !! l').
Proof.
  apply (notify_evaluation_mutates_payload (env_of "{}" peer_ok) 0%nat demo_payload
           (PStr "https://eval.example/cb") (demo_world tt)).
  - reflexivity.
  - vm_compute. reflexivity.
  - reflexivity.
Defined.

(** ** The hosting publisher *)

Section Hosting.

Context {G : Type}.
Variable E : environment.

(** C3, as amended: when the enable request is answered with a status
    other than 201 and the status read with a status other than 200,
    [enable_pages] returns [None] without raising, having sent exactly
    these two requests; an exception raised by either request is not
    caught and leaves [enable_pages] as it is. *)
Theorem enable_pages_degrades repo (w : world G) :
  let url := pages_url_of repo in
  let enable := HttpPost url (PagesSource "main" "/") in
  (forall r1 r2,
     http_send E (w_nreq w) enable = Ok r1 -> status_code r1 <> 201 ->
     http_send E (S (w_nreq w)) (HttpGet url) = Ok r2 -> status_code r2 <> 200 ->
     enable_pages E repo w =
       (Ok PNone, World (w_fs w) (w_heap w) (w_hub w) (S (S (w_nreq w)))
                        (w_trace w ++ [EvHttp enable; EvHttp (HttpGet url)])))
  /\ (forall e, http_send E (w_nreq w) enable = Raise e ->
       fst (enable_pages E repo w) = Raise e)
  /\ (forall r1 e,
       http_send E (w_nreq w) enable = Ok r1 -> status_code r1 <> 201 ->
       http_send E (S (w_nreq w)) (HttpGet url) = Raise e ->
       fst (enable_pages E repo w) = Raise e).
Proof.
  intros url enable.
  assert (Hrun : enable_pages E repo w =
    match http_send E (w_nreq w) enable with
    | Ok r1 =>
        let w1 := World (w_fs w) (w_heap w) (w_hub w) (S (w_nreq w))
                        (w_trace w ++ [EvHttp enable]) in
        if status_code r1 =? 201 then (time_sleep 10 >> response_html_url r1) w1
        else
          match http_send E (S (w_nreq w)) (HttpGet url) with
          | Ok r2 =>
              let w2 := World (w_fs w) (w_heap w) (w_hub w) (S (S (w_nreq w)))
                              (w_trace w ++ [EvHttp enable; EvHttp (HttpGet url)]) in
              if status_code r2 =? 200 then response_html_url r2 w2
              else (Ok PNone, w2)
          | Raise e =>
              (Raise e, World (w_fs w) (w_heap w) (w_hub w) (S (S (w_nreq w)))
                              (w_trace w ++ [EvHttp enable; EvHttp (HttpGet url)]))
          end
    | Raise e =>
        (Raise e, World (w_fs w) (w_heap w) (w_hub w) (S (w_nreq w))
                        (w_trace w ++ [EvHttp enable]))
    end).
  { unfold enable_pages. fold (pages_url_of repo). fold url.
    unfold bind at 1, requests_post, http. fold enable.
    destruct (http_send E (w_nreq w) enable) as [r1|e]; [|done].
    cbv zeta. destruct (status_code r1 =? 201); [done|].
    unfold bind, requests_get, http. simpl.
    rewrite <- app_assoc. simpl.
    destruct (http_send E (S (w_nreq w)) (HttpGet url)) as [r2|e]; [|done].
    by destruct (status_code r2 =? 200). }
  rewrite Hrun. split; [|split].
  - intros r1 r2 H1 Hs1 H2 Hs2. rewrite H1. cbv zeta.
    destruct (Z.eqb_spec (status_code r1) 201); [done|]. rewrite H2.
    by destruct (Z.eqb_spec (status_code r2) 200).
  - intros e H1. by rewrite H1.
  - intros r1 e H1 Hs1 H2. rewrite H1. cbv zeta.
    destruct (Z.eqb_spec (status_code r1) 201); [done|]. by rewrite H2.
Qed.

End Hosting.

(** C3, as stated, fails: the enable request is refused (409), the status
    read raises, and [enable_pages] raises with it. *)
Lemma enable_pages_never_raises_counterexample :
  ~ (forall (E : environment) (repo : repository) (w : world unit),
       request_fails 201
         (http_send E (w_nreq w) (HttpPost (pages_url_of repo) (PagesSource "main" "/"))) ->
       request_fails 200 (http_send E (S (w_nreq w)) (HttpGet (pages_url_of repo))) ->
       exists w', enable_pages E repo w = (Ok PNone, w')).
Proof.
  intros Hall.
  destruct (Hall (env_of "{}" peer_pages_lost) (Hub.handle "task-t1") (demo_world tt))
    as (w' & Hrun).
  - simpl. lia.
  - exact I.
  - vm_compute in Hrun. discriminate Hrun.
Qed.

Lemma enable_pages_degrades_witness :
  fst (enable_pages (env_of "{}" peer_pages_absent) (Hub.handle "task-t1") (demo_world tt))
    = Ok PNone.
Proof.
  destruct (enable_pages_degrades (env_of "{}" peer_pages_absent) (Hub.handle "task-t1")
              (demo_world tt)) as [Hnone _].
  rewrite (Hnone (Response 409 NotJson) (Response 404 NotJson)).
  - reflexivity.
  - reflexivity.
  - simpl. lia.
  - reflexivity.
  - simpl. lia.
Defined.

(** ** Acquiring the repository *)

Section Acquisition.

Context {G : Type} `{GithubClient G}.

Lemma hub_op_run {A} (call : hub_call) (op : G -> result A * G) (w : world G) :
  hub_op call op w =
    (fst (op (w_hub w)),
     World (w_fs w) (w_heap w) (snd (op (w_hub w))) (w_nreq w)
           (w_trace w ++ [EvHub call])).
Proof.
  unfold hub_op, bind, log. simpl. by destruct (op (w_hub w)).
Qed.


End Acquisition.


(** ** The content generator *)

Lemma bind_ok {G A B} (c : M G A) (k : A -> M G B) w a w' :
  c w = (Ok a, w') -> bind c k w = k a w'.
Proof. intros Hc. unfold bind. by rewrite Hc. Qed.

Lemma bind_raise {G A B} (c : M G A) (k : A -> M G B) w e w' :
  c w = (Raise e, w') -> bind c k w = (Raise e, w').
Proof. intros Hc. unfold bind. by rewrite Hc. Qed.

Lemma for_each_app {G A} (body : A -> M G unit) (l1 l2 : list A) (w : world G) :
  for_each (l1 ++ l2) body w = (for_each l1 body >> for_each l2 body) w.
Proof.
  revert w. induction l1 as [|x l1 IH]; intros w; simpl.
  - reflexivity.
  - unfold bind. destruct (body x w) as [[[]|e] w1]; [|done].
    rewrite IH. reflexivity.
Qed.

Lemma split1_no_sep sep s : occurs sep s = false -> split1 sep s = [s].
Proof.
  induction s as [|c s IH]; simpl; [done|].
  intros [Hc Hs]%orb_false_iff. rewrite Hc, (IH Hs). done.
Qed.

Lemma split1_at_sep sep header rest :
  occurs sep header = false ->
  split1 sep (header +:+ String sep rest) = [header; rest].
Proof.
  induction header as [|c header IH]; simpl.
  - intros _. by rewrite Ascii.eqb_refl.
  - intros [Hc Hs]%orb_false_iff. rewrite Hc, (IH Hs). done.
Qed.

Lemma truthy_str s : s <> EmptyString -> truthy (PStr s) = true.
Proof. by destruct s. Qed.

Lemma plain_name_nonempty n : plain_name n = true -> n <> EmptyString.
Proof. by intros Hn ->. Qed.

Lemma resolve_plain E d n : plain_name n = true -> resolve E d n = InDir d n.
Proof. intros Hn. unfold resolve. by rewrite Hn. Qed.

Section Generation.

Context {G : Type}.
Variable E : environment.

Lemma os_makedirs_run d (w : world G) :
  os_makedirs d w = (Ok tt, snd (os_makedirs d w))
  /\ is_Some (w_fs (snd (os_makedirs d w)) !! d)
  /\ w_trace (snd (os_makedirs d w)) = w_trace w.
Proof.
  unfold os_makedirs. destruct (w_fs w !! d) as [files|] eqn:Hd; simpl.
  - by rewrite Hd.
  - by rewrite lookup_insert_eq.
Qed.

Lemma save_attachment_skip d a (w : world G) :
  skipped a -> save_attachment E d a w = (Ok tt, w).
Proof.
  unfold save_attachment. by intros [-> | ->]; rewrite ?andb_false_r.
Qed.

Lemma save_attachment_write d a name data files (w : world G) :
  well_formed E a name data ->
  w_fs w !! d = Some files ->
  save_attachment E d a w =
    (Ok tt, set_fs (<[d := <[name := data]> files]> (w_fs w)) w).
Proof.
  intros (header & encoded & Hname & Hpl & Hurl & Hsep & Hdec) Hd.
  unfold save_attachment.
  rewrite Hname, Hurl, (truthy_str _ (plain_name_nonempty _ Hpl)).
  rewrite (split1_at_sep _ _ _ Hsep).
  rewrite truthy_str by (by destruct header). simpl.
  unfold bind, lift. rewrite Hdec. unfold open_wb.
  rewrite (resolve_plain _ _ _ Hpl). unfold file_write. by rewrite Hd.
Qed.

Lemma save_attachment_no_comma d a name uri (w : world G) :
  dict_get a "name" = PStr name -> name <> EmptyString ->
  dict_get a "url" = PStr uri -> uri <> EmptyString ->
  occurs comma uri = false ->
  save_attachment E d a w = (Raise ValueError, w).
Proof.
  intros Hname Hne Hurl Hue Hsep. unfold save_attachment.
  rewrite Hname, Hurl, !truthy_str by done. simpl.
  by rewrite (split1_no_sep _ _ Hsep).
Qed.

(** Saving an attachment touches nothing but the files of the task
    directory, which stays in place. *)
Lemma save_attachment_frame d a (w : world G) r w' :
  save_attachment E d a w = (r, w') ->
  w_trace w' = w_trace w /\ (is_Some (w_fs w !! d) -> is_Some (w_fs w' !! d)).
Proof.
  unfold save_attachment, open_wb, bind, lift, file_write, raise, ret.
  intros Hrun. repeat case_match; simplify_eq; simpl; split; try done.
  intros Hd. match goal with |- is_Some (<[?d' := _]> _ !! _) =>
    destruct (decide (d' = d)) as [->|Hne] end.
  - by rewrite lookup_insert_eq.
  - by rewrite lookup_insert_ne.
Qed.

Lemma attachments_frame d atts : forall (w : world G) r w',
  for_each atts (save_attachment E d) w = (r, w') ->
  w_trace w' = w_trace w /\ (is_Some (w_fs w !! d) -> is_Some (w_fs w' !! d)).
Proof.
  induction atts as [|a atts IH]; intros w r w' Hrun; simpl in Hrun.
  - by injection Hrun as _ ->.
  - unfold bind in Hrun.
    destruct (save_attachment E d a w) as [[[]|e] w1] eqn:Ha.
    + destruct (save_attachment_frame _ _ _ _ _ Ha) as [Ht Hd].
      destruct (IH _ _ _ Hrun) as [Ht' Hd']. split; [congruence|auto].
    + injection Hrun as _ <-. by apply (save_attachment_frame _ _ _ _ _ Ha).
Qed.


(** Saving an attachment leaves alone every file that its name does not
    lead to. *)
Lemma save_attachment_keep d a d0 n (w : world G) r w' :
  save_attachment E d a w = (r, w') ->
  ~ stored_at E d a d0 n ->
  file_of d0 n w' = file_of d0 n w.
Proof.
  intros Hrun Hn. revert Hrun. unfold save_attachment, raise, ret.
  destruct (truthy _ && truthy _) eqn:Hboth; [|by intros [= _ <-]].
  apply andb_true_iff in Hboth as [Hname_t Hurl_t].
  assert (Hsaved : ~ skipped a) by (intros [Hs|Hs]; congruence).
  clear Hname_t Hurl_t.
  destruct (dict_get a "url") as [| | |uri]; try by intros [= _ <-].
  destruct (split1 comma uri) as [|header [|encoded [|]]]; try by intros [= _ <-].
  unfold bind, lift. destruct (b64decode E encoded) as [data|e]; [|by intros [= _ <-]].
  destruct (dict_get a "name") as [| | |name] eqn:Hname; try by intros [= _ <-].
  unfold open_wb, lift. destruct (resolve E d name) as [d' n'|out] eqn:Hres;
    [|by intros [= _ <-]].
  unfold file_write, file_of.
  destruct (w_fs w !! d') as [files|] eqn:Hd'; intros [= _ <-]; [|done].
  simpl. destruct (decide (d' = d0)) as [->|Hne].
  - rewrite lookup_insert_eq, Hd'. apply lookup_insert_ne.
    intros ->. apply Hn. split; [done|]. by exists name.
  - by rewrite lookup_insert_ne.
Qed.

Lemma attachments_keep d d0 n atts : forall (w : world G) r w',
  for_each atts (save_attachment E d) w = (r, w') ->
  (forall a, a ∈ atts -> ~ stored_at E d a d0 n) ->
  file_of d0 n w' = file_of d0 n w.
Proof.
  induction atts as [|a atts IH]; intros w r w' Hrun Hn; simpl in Hrun.
  - by injection Hrun as _ <-.
  - unfold bind in Hrun.
    assert (Ha' : ~ stored_at E d a d0 n) by (apply Hn; by left).
    destruct (save_attachment E d a w) as [[[]|e] w1] eqn:Ha.
    + rewrite (IH _ _ _ Hrun), (save_attachment_keep _ _ _ _ _ _ _ Ha Ha'); [done|].
      intros a' Hin. apply Hn. by right.
    + injection Hrun as _ <-. by apply (save_attachment_keep _ _ _ _ _ _ _ Ha).
Qed.


Lemma well_formed_plainly_named a name data :
  well_formed E a name data -> plainly_named a.
Proof.
  intros (header & encoded & Hname & Hpl & _) name' Hname' _. congruence.
Qed.

(** A plain name leads to the file of that name in the directory itself,
    and to no other. *)
Lemma plainly_named_stored d a d0 n :
  plainly_named a -> stored_at E d a d0 n -> d0 = d /\ dict_get a "name" = PStr n.
Proof.
  intros Hpl (Hsaved & name & Hname & Hres).
  assert (Hne : name <> EmptyString).
  { intros ->. apply Hsaved. left. by rewrite Hname. }
  rewrite (resolve_plain _ _ _ (Hpl name Hname Hne)) in Hres.
  injection Hres as <- <-. done.
Qed.

Lemma acceptable_not_stored d a n :
  acceptable E a -> dict_get a "name" <> PStr n -> ~ stored_at E d a d n.
Proof.
  intros [Hskip | (name & data & Hwf)] Hn Hst; [by destruct Hst|].
  by destruct (plainly_named_stored _ _ _ _ (well_formed_plainly_named _ _ _ Hwf) Hst).
Qed.

Lemma attachments_complete d atts : forall (w : world G),
  Forall (acceptable E) atts ->
  is_Some (w_fs w !! d) ->
  exists w', for_each atts (save_attachment E d) w = (Ok tt, w').
Proof.
  induction atts as [|a atts IH]; intros w Hall Hd; simpl.
  - by exists w.
  - apply Forall_cons in Hall as [Ha Hall].
    assert (Hstep : exists w1, save_attachment E d a w = (Ok tt, w1)).
    { destruct Ha as [Hskip | (name & data & Hwf)].
      - exists w. by apply save_attachment_skip.
      - destruct Hd as [files Hd]. eexists. by apply save_attachment_write. }
    destruct Hstep as [w1 Hstep]. rewrite (bind_ok _ _ _ _ _ Hstep).
    apply IH; [done|]. by apply (save_attachment_frame _ _ _ _ _ Hstep).
Qed.

End Generation.

Section Documents.

Context {G : Type} `{GithubClient G}.
Variable E : environment.




Lemma file_read_text_run task_id bytes (w : world G) :
  document_of task_id w = Some bytes ->
  file_read_text ("task-" +:+ task_id) "index.html" w =
    (if valid_utf8 bytes then Ok (universal_newlines bytes) else Raise UnicodeDecodeError, w).
Proof.
  intros Hdoc. unfold file_read_text, file_read, document_of in *.
  destruct (w_fs w !! ("task-" +:+ task_id)) as [files|]; [|done].
  rewrite Hdoc. by destruct (valid_utf8 bytes).
Qed.

Lemma build_prompt_revision brief task_id round_num bytes (w : world G) :
  1 < round_num ->
  document_of task_id w = Some bytes ->
  valid_utf8 bytes = true ->
  build_prompt brief ("task-" +:+ task_id) round_num w =
    (Ok (base_prompt brief +:+ revision_context (universal_newlines bytes)), w).
Proof.
  intros Hr Hdoc Hutf. unfold build_prompt.
  destruct (Z.ltb_spec 1 round_num); [|lia].
  unfold bind. by rewrite (file_read_text_run _ _ _ Hdoc), Hutf.
Qed.

(** Text without a carriage return is read back as it is. *)
Lemma universal_newlines_id s : occurs cr s = false -> universal_newlines s = s.
Proof.
  induction s as [|c s IH]; simpl; [done|].
  intros [Hc Hs]%orb_false_iff. rewrite Hc. f_equal. by apply IH.
Qed.

(** Once the attachments are saved and the instruction is built, the rest
    of [generate_app] is the call, the parsing and the write. *)
Lemma generate_app_tail brief atts task_id round_num prompt (w w1 : world G) :
  let d := "task-" +:+ task_id in
  for_each atts (save_attachment E d) (snd (os_makedirs d w)) = (Ok tt, w1) ->
  build_prompt brief d round_num w1 = (Ok prompt, w1) ->
  generate_app E brief atts task_id round_num w =
    match chat_completion E prompt with
    | Ok content =>
        (let* html_content := parse_html E content in
         file_write_text d "index.html" html_content) (logged [EvChat prompt] w1)
    | Raise e => (Raise e, logged [EvChat prompt] w1)
    end.
Proof.
  intros d Hatt Hprompt. unfold generate_app. fold d.
  destruct (os_makedirs_run d w) as (Hmk & _ & _).
  rewrite (bind_ok _ _ _ _ _ Hmk), (bind_ok _ _ _ _ _ Hatt), (bind_ok _ _ _ _ _ Hprompt).
  unfold bind at 1, chat_create, bind at 1, log. simpl.
  by destruct (chat_completion E prompt).
Qed.

(** The parsing step changes nothing in the world. *)
Lemma parse_html_pure content (w : world G) :
  exists r, parse_html E content w = (r, w).
Proof.
  unfold parse_html, try_except, bind, lift, json_get.
  destruct (json_loads E content) as [[]|[]]; simpl; eauto.
Qed.

Lemma file_write_text_frame d name v (w : world G) r w' :
  file_write_text d name v w = (r, w') -> w_trace w' = w_trace w.
Proof.
  unfold file_write_text, bind, file_write, raise.
  intros Hrun. repeat case_match; by simplify_eq.
Qed.

(** Whatever the service answers, [generate_app] sends it exactly the
    instruction that was built, once. *)
Lemma generate_app_sends brief atts task_id round_num prompt (w w1 : world G) :
  let d := "task-" +:+ task_id in
  for_each atts (save_attachment E d) (snd (os_makedirs d w)) = (Ok tt, w1) ->
  build_prompt brief d round_num w1 = (Ok prompt, w1) ->
  exists r w',
    generate_app E brief atts task_id round_num w = (r, w')
    /\ w_trace w' = w_trace w ++ [EvChat prompt].
Proof.
  intros d Hatt Hprompt.
  rewrite (generate_app_tail _ _ _ _ _ _ _ Hatt Hprompt). fold d.
  destruct (attachments_frame E _ _ _ _ _ Hatt) as [Htr _].
  destruct (os_makedirs_run d w) as (_ & _ & Htr0).
  assert (Hlog : w_trace (logged [EvChat prompt] w1) = w_trace w ++ [EvChat prompt])
    by (simpl; congruence).
  destruct (chat_completion E prompt) as [content|e]; [|by eauto].
  destruct (parse_html_pure content (logged [EvChat prompt] w1)) as [[v|e] Hparse].
  - rewrite (bind_ok _ _ _ _ _ Hparse).
    destruct (file_write_text d "index.html" v (logged [EvChat prompt] w1))
      as [r w'] eqn:Hwrite.
    exists r, w'. split; [done|].
    by rewrite (file_write_text_frame _ _ _ _ _ _ Hwrite).
  - rewrite (bind_raise _ _ _ _ _ Hparse). eauto.
Qed.

(** What [generate_app] leaves as the document when the reply parses to
    the string [html], and what the parsing makes of the three shapes of a
    reply. *)
Lemma generate_app_writes brief atts task_id round_num prompt content html
    (w w1 : world G) :
  let d := "task-" +:+ task_id in
  for_each atts (save_attachment E d) (snd (os_makedirs d w)) = (Ok tt, w1) ->
  build_prompt brief d round_num w1 = (Ok prompt, w1) ->
  chat_completion E prompt = Ok content ->
  parse_html E content (logged [EvChat prompt] w1)
    = (Ok (JString html), logged [EvChat prompt] w1) ->
  valid_utf8 html = true ->
  exists w',
    generate_app E brief atts task_id round_num w = (Ok tt, w')
    /\ document_of task_id w' = Some html.
Proof.
  intros d Hatt Hprompt Hchat Hparse Hutf.
  rewrite (generate_app_tail _ _ _ _ _ _ _ Hatt Hprompt), Hchat. fold d.
  rewrite (bind_ok _ _ _ _ _ Hparse).
  destruct (os_makedirs_run d w) as (_ & Hd0 & _).
  destruct (attachments_frame E _ _ _ _ _ Hatt) as [_ Hd].
  destruct (Hd Hd0) as [files Hfiles].
  unfold file_write_text. rewrite Hutf. unfold file_write. simpl. rewrite Hfiles.
  eexists. split; [reflexivity|].
  unfold document_of. fold d. simpl. rewrite lookup_insert_eq.
  apply lookup_insert_eq.
Qed.

Lemma parse_html_malformed content (w : world G) :
  json_loads E content = Raise JSONDecodeError ->
  parse_html E content w = (Ok (JString fallback_html), w).
Proof.
  intros Hloads. unfold parse_html, try_except, bind, lift. by rewrite Hloads.
Qed.

Lemma parse_html_object content fields (w : world G) :
  json_loads E content = Ok (JObject fields) ->
  parse_html E content w = (Ok (default (JString EmptyString) (assoc "html" fields)), w).
Proof.
  intros Hloads. unfold parse_html, try_except, bind, lift. by rewrite Hloads.
Qed.

(** A reply that is valid JSON but not an object has no [get]: the
    [AttributeError] is not among the exceptions caught. *)
Lemma parse_html_not_object content items (w : world G) :
  json_loads E content = Ok (JArray items) ->
  parse_html E content w = (Raise AttributeError, w).
Proof.
  intros Hloads. unfold parse_html, try_except, bind, lift. by rewrite Hloads.
Qed.

Lemma build_prompt_frame brief d round_num (w : world G) r w' :
  build_prompt brief d round_num w = (r, w') -> w' = w.
Proof.
  unfold build_prompt, bind, file_read_text, file_read, ret.
  intros Hrun. repeat case_match; by simplify_eq.
Qed.

(** When [generate_app] returns, a document is in place in the task
    directory, and it is encoded text. *)
Lemma generate_app_ok_document brief atts task_id round_num (w w' : world G) :
  generate_app E brief atts task_id round_num w = (Ok tt, w') ->
  exists doc, document_of task_id w' = Some doc /\ valid_utf8 doc = true.
Proof.
  intros Hrun. pose proof Hrun as Hrun0. revert Hrun0.
  unfold generate_app. set (d := "task-" +:+ task_id).
  destruct (os_makedirs_run d w) as (Hmk & Hd0 & _).
  rewrite (bind_ok _ _ _ _ _ Hmk). unfold bind at 1.
  destruct (for_each atts _ _) as [[[]|e] w1] eqn:Hatt; [|done].
  unfold bind at 1.
  destruct (build_prompt brief d round_num w1) as [[prompt|e] w1'] eqn:Hprompt; [|done].
  pose proof (build_prompt_frame _ _ _ _ _ _ Hprompt) as ->. intros _.
  rewrite (generate_app_tail _ _ _ _ _ _ _ Hatt Hprompt) in Hrun. fold d in Hrun.
  destruct (chat_completion E prompt) as [content|e]; [|done].
  destruct (parse_html_pure content (logged [EvChat prompt] w1)) as [[v|e] Hparse].
  - rewrite (bind_ok _ _ _ _ _ Hparse) in Hrun.
    destruct (attachments_frame E _ _ _ _ _ Hatt) as [_ Hd].
    destruct (Hd Hd0) as [files Hfiles].
    revert Hrun. unfold file_write_text, bind, file_write, raise.
    destruct v as [| | |s| |]; simpl; rewrite ?Hfiles; try done.
    destruct (valid_utf8 s) eqn:Hutf; simpl; rewrite Hfiles; [|done]. intros [= <-].
    unfold document_of. fold d. simpl. rewrite lookup_insert_eq, lookup_insert_eq.
    by exists s.
  - by rewrite (bind_raise _ _ _ _ _ Hparse) in Hrun.
Qed.

(** Two rounds in a row: the document a run of [generate_app] leaves is
    always read back by the next run on a round above 1 and without
    attachments, and the one instruction that run sends is the instruction
    built from its brief, then the line [**Existing HTML (for revision):**]
    and the document between code fences, each CR LF and CR of the
    document turned into LF; a document without carriage returns is there
    as it was written. *)
Lemma generate_app_revises_previous brief1 atts1 round1 brief2 round2 task_id
    (w w1 : world G) :
  generate_app E brief1 atts1 task_id round1 w = (Ok tt, w1) ->
  1 < round2 ->
  exists doc r w2,
    document_of task_id w1 = Some doc
    /\ generate_app E brief2 [] task_id round2 w1 = (r, w2)
    /\ w_trace w2 = w_trace w1 ++
         [EvChat (base_prompt brief2 +:+ nl +:+ "**Existing HTML (for revision):**"
                  +:+ nl +:+ "```html" +:+ nl +:+ universal_newlines doc +:+ nl +:+ "```")]
    /\ (occurs cr doc = false -> universal_newlines doc = doc).
Proof.
  intros Hrun Hround.
  destruct (generate_app_ok_document _ _ _ _ _ _ Hrun) as (doc & Hdoc & Hutf).
  assert (Hmk : snd (os_makedirs ("task-" +:+ task_id) w1) = w1).
  { unfold os_makedirs, document_of in *.
    by destruct (w_fs w1 !! ("task-" +:+ task_id)). }
  destruct (generate_app_sends brief2 [] task_id round2
              (base_prompt brief2 +:+ revision_context (universal_newlines doc)) w1 w1)
    as (r & w2 & Hrun2 & Htr).
  - simpl. by rewrite Hmk.
  - by apply build_prompt_revision.
  - exists doc, r, w2. split; [done|]. split; [done|]. split; [exact Htr|].
    apply universal_newlines_id.
Qed.

(** The half of C1 that holds: a reply that is not JSON leaves the
    fallback page as the document, and [generate_app] returns. *)
Lemma generate_app_malformed_reply brief atts task_id round_num prompt content
    (w w1 : world G) :
  let d := "task-" +:+ task_id in
  for_each atts (save_attachment E d) (snd (os_makedirs d w)) = (Ok tt, w1) ->
  build_prompt brief d round_num w1 = (Ok prompt, w1) ->
  chat_completion E prompt = Ok content ->
  json_loads E content = Raise JSONDecodeError ->
  exists w',
    generate_app E brief atts task_id round_num w = (Ok tt, w')
    /\ document_of task_id w' = Some fallback_html.
Proof.
  intros d Hatt Hprompt Hchat Hloads.
  apply (generate_app_writes _ _ _ _ _ _ _ _ _ Hatt Hprompt Hchat).
  - by apply parse_html_malformed.
  - reflexivity.
Qed.

(** C1 at the input where the code departs from it: when the reply is a
    JSON object without the field [html], [generate_app] returns and the
    document it leaves in the working directory is the empty text, not the
    fallback page. *)
Theorem generate_app_missing_field brief atts task_id round_num prompt content fields
    (w w1 : world G) :
  let d := "task-" +:+ task_id in
  for_each atts (save_attachment E d) (snd (os_makedirs d w)) = (Ok tt, w1) ->
  build_prompt brief d round_num w1 = (Ok prompt, w1) ->
  chat_completion E prompt = Ok content ->
  json_loads E content = Ok (JObject fields) ->
  assoc "html" fields = None ->
  exists w',
    generate_app E brief atts task_id round_num w = (Ok tt, w')
    /\ document_of task_id w' = Some EmptyString
    /\ document_of task_id w' <> Some fallback_html.
Proof.
  intros d Hatt Hprompt Hchat Hloads Hfield.
  destruct (generate_app_writes brief atts task_id round_num prompt content EmptyString
              w w1 Hatt Hprompt Hchat) as (w' & Hrun & Hdoc).
  { rewrite (parse_html_object _ _ _ Hloads), Hfield. done. }
  { reflexivity. }
  exists w'. split; [done|]. split; [done|]. by rewrite Hdoc.
Qed.



(** C10: an attachment with a name and a non-empty URL without a comma
    makes [generate_app] raise [ValueError] at the split, as soon as the
    attachments before it are saved; the exception leaves
    [process_request] too, and up to there nothing was sent to the
    generation service or to anyone else. *)
Theorem generate_app_no_comma_aborts (data : task_request) pre a post name uri
    (w w1 : world G) :
  let d := "task-" +:+ task data in
  attachments data = pre ++ a :: post ->
  dict_get a "name" = PStr name -> name <> EmptyString ->
  dict_get a "url" = PStr uri -> uri <> EmptyString ->
  occurs comma uri = false ->
  for_each pre (save_attachment E d) (snd (os_makedirs d w)) = (Ok tt, w1) ->
  generate_app E (brief data) (attachments data) (task data) (round data) w
    = (Raise ValueError, w1)
  /\ process_request E data w = (Raise ValueError, w1)
  /\ w_trace w1 = w_trace w.
Proof.
  intros d Hatts Hname Hne Hurl Hue Hsep Hpre.
  assert (Hgen : generate_app E (brief data) (attachments data) (task data) (round data) w
                 = (Raise ValueError, w1)).
  { unfold generate_app. fold d.
    destruct (os_makedirs_run d w) as (Hmk & _ & _).
    rewrite (bind_ok _ _ _ _ _ Hmk). apply bind_raise.
    rewrite Hatts, for_each_app. rewrite (bind_ok _ _ _ _ _ Hpre). simpl.
    apply bind_raise. by apply (save_attachment_no_comma E d a name uri). }
  split; [done|]. split.
  - unfold process_request. by apply bind_raise.
  - destruct (attachments_frame E _ _ _ _ _ Hpre) as [Htr _].
    destruct (os_makedirs_run d w) as (_ & _ & Htr0). congruence.
Qed.

End Documents.

Lemma generate_app_missing_field_witness :
  exists w',
    generate_app (env_of "{}" peer_live) "a clock" [] "t1" 1 fresh_world = (Ok tt, w')
    /\ document_of "t1" w' = Some EmptyString
    /\ document_of "t1" w' <> Some fallback_html.
Proof.
  apply (generate_app_missing_field (env_of "{}" peer_live) "a clock" [] "t1" 1
           (base_prompt "a clock") "{}" [] fresh_world
           (snd (os_makedirs "task-t1" fresh_world))); reflexivity.
Defined.

(** The run goes on after the empty document is written: it is published
    as [index.html] and the request is processed to its end. *)
Example process_request_publishes_empty_document :
  fst (process_request (env_of "{}" peer_live) (demo_request 1 []) fresh_world) = Ok tt
  /\ Hub.files_of "task-t1"
       (w_hub (snd (process_request (env_of "{}" peer_live) (demo_request 1 [])
                      fresh_world)))
       !! "index.html" = Some EmptyString.
Proof. vm_compute. split; reflexivity. Qed.


Lemma attachment_ok_well_formed :
  well_formed (env_of "{}" peer_live) attachment_ok "hi.txt" "hi".
Proof.
  exists "data:text/plain;base64", "aGk=". repeat split; reflexivity.
Defined.




Lemma generate_app_no_comma_aborts_witness :
  fst (process_request (env_of "{}" peer_live)
         (demo_request 1 [attachment_ok; attachment_no_comma]) fresh_world)
    = Raise ValueError
  /\ w_trace (snd (process_request (env_of "{}" peer_live)
                     (demo_request 1 [attachment_ok; attachment_no_comma]) fresh_world))
     = [].
Proof.
  destruct (generate_app_no_comma_aborts (env_of "{}" peer_live)
              (demo_request 1 [attachment_ok; attachment_no_comma])
              [attachment_ok] attachment_no_comma [] "hi.txt" "aGk=" fresh_world
              (snd (for_each [attachment_ok]
                      (save_attachment (env_of "{}" peer_live) "task-t1")
                      (snd (os_makedirs "task-t1" fresh_world)))))
    as (_ & Hrun & Htr); try reflexivity; try discriminate.
  rewrite Hrun. split; [reflexivity|exact Htr].
Defined.

(** ** Publishing to the reference store *)

Lemma created_paths_app evs1 evs2 :
  created_paths (evs1 ++ evs2) = created_paths evs1 ++ created_paths evs2.
Proof.
  induction evs1 as [|ev evs1 IH]; simpl; [done|].
  destruct ev as [| | | |[]]; simpl; by rewrite ?IH.
Qed.

Lemma updated_paths_app evs1 evs2 :
  updated_paths (evs1 ++ evs2) = updated_paths evs1 ++ updated_paths evs2.
Proof.
  induction evs1 as [|ev evs1 IH]; simpl; [done|].
  destruct ev as [| | | |[]]; simpl; by rewrite ?IH.
Qed.

Section Publish.

Implicit Types w : world hubs.

(** One iteration on an existing repository: the file ends up in the
    store with the local content, by update when the store has the path and
    by creation when it has not.  It cannot fail. *)
Lemma upload_file_hub d r f files content rs w :
  w_fs w !! d = Some files ->
  files !! f = Some content ->
  w_hub w !! repo_name r = Some rs ->
  upload_file d r f w =
    (Ok tt,
     World (w_fs w) (w_heap w)
           (<[repo_name r :=
                Hub.push (publish_message f (Hub.files rs !! f)) f content rs]> (w_hub w))
           (w_nreq w)
           (w_trace w ++ publish_events (repo_name r) f content (Hub.files rs !! f))).
Proof.
  intros Hd Hf Hr. unfold upload_file, bind at 1, file_read. rewrite Hd, Hf.
  unfold try_except, bind, hub_get_contents, hub_update_file, hub_create_file.
  rewrite !hub_op_run. simpl. unfold Hub.get_contents. rewrite Hr.
  destruct (Hub.files rs !! f) as [cur|] eqn:Hcur; simpl.
  - rewrite hub_op_run. simpl. unfold Hub.update_file. rewrite Hr, Hcur.
    rewrite String.eqb_refl. simpl. by rewrite <- app_assoc.
  - rewrite hub_op_run. simpl. unfold Hub.create_file. rewrite Hr, Hcur. simpl.
    by rewrite <- app_assoc.
Qed.

(** The publish loop over names of local files, on an existing
    repository: it runs to its end, and afterwards the store has the local
    content for every name of the loop and what it had for every other
    path. *)
Lemma upload_loop_hub d r files names : forall rs w,
  w_fs w !! d = Some files ->
  Forall (fun f => is_Some (files !! f)) names ->
  w_hub w !! repo_name r = Some rs ->
  exists rs' evs,
    for_each names (upload_file d r) w =
      (Ok tt, World (w_fs w) (w_heap w) (<[repo_name r := rs']> (w_hub w))
                    (w_nreq w) (w_trace w ++ evs))
    /\ (forall p, Hub.files rs' !! p =
                   if decide (p ∈ names) then files !! p else Hub.files rs !! p)
    /\ (length (Hub.commits rs) <= length (Hub.commits rs'))%nat.
Proof.
  induction names as [|f names IH]; intros rs w Hd Hall Hr; simpl.
  - exists rs, []. rewrite app_nil_r, (insert_id _ _ _ Hr).
    split; [by destruct w|]. split; [|lia].
    intros p. destruct (decide (p ∈ [])) as [Hin|_]; [|done].
    by apply elem_of_nil in Hin.
  - apply Forall_cons in Hall as [[content Hf] Hall].
    rewrite (bind_ok _ _ _ _ _ (upload_file_hub d r f files content rs w Hd Hf Hr)).
    set (rs1 := Hub.push (publish_message f (Hub.files rs !! f)) f content rs).
    set (w1 := World _ _ _ _ _).
    destruct (IH rs1 w1 Hd Hall) as (rs' & evs & Hrun & Hfiles & Hlen).
    { simpl. apply lookup_insert_eq. }
    exists rs', (publish_events (repo_name r) f content (Hub.files rs !! f) ++ evs).
    rewrite Hrun. simpl. rewrite insert_insert_eq, <- app_assoc.
    split; [done|]. split; [|simpl in Hlen; lia].
    intros p. rewrite Hfiles.
    destruct (decide (p ∈ names)) as [Hin|Hnin].
    + rewrite decide_True; [done|]. by apply elem_of_cons; right.
    + simpl. destruct (decide (p = f)) as [->|Hne].
      * rewrite decide_True by (apply elem_of_cons; by left).
        by rewrite lookup_insert_eq.
      * rewrite decide_False.
        -- by rewrite lookup_insert_ne.
        -- intros [?|?]%elem_of_cons; done.
Qed.

(** The same loop when the store already has the local content for every
    name: each file goes through the update path, nothing is created, and
    the files of the store are what they were. *)
Lemma upload_loop_synced d r files names : forall rs w,
  w_fs w !! d = Some files ->
  Forall (fun f => is_Some (files !! f)) names ->
  w_hub w !! repo_name r = Some rs ->
  (forall f, f ∈ names -> Hub.files rs !! f = files !! f) ->
  exists rs' evs,
    for_each names (upload_file d r) w =
      (Ok tt, World (w_fs w) (w_heap w) (<[repo_name r := rs']> (w_hub w))
                    (w_nreq w) (w_trace w ++ evs))
    /\ Hub.files rs' = Hub.files rs
    /\ (length (Hub.commits rs) <= length (Hub.commits rs'))%nat
    /\ created_paths evs = []
    /\ updated_paths evs = names.
Proof.
  induction names as [|f names IH]; intros rs w Hd Hall Hr Hsync; simpl.
  - exists rs, []. rewrite app_nil_r, (insert_id _ _ _ Hr).
    repeat split; try done. by destruct w.
  - apply Forall_cons in Hall as [[content Hf] Hall].
    rewrite (bind_ok _ _ _ _ _ (upload_file_hub d r f files content rs w Hd Hf Hr)).
    assert (Hcur : Hub.files rs !! f = Some content).
    { rewrite Hsync; [done|]. apply elem_of_cons; by left. }
    rewrite Hcur. simpl.
    set (rs1 := Hub.push ("Update " +:+ f) f content rs).
    assert (Hsame : Hub.files rs1 = Hub.files rs) by (simpl; by apply insert_id).
    set (w1 := World _ _ _ _ _).
    destruct (IH rs1 w1 Hd Hall) as (rs' & evs & Hrun & Hfiles & Hlen & Hcr & Hup).
    { simpl. apply lookup_insert_eq. }
    { intros g Hg. rewrite Hsame. apply Hsync. apply elem_of_cons; by right. }
    eexists rs', (_ :: _ :: evs).
    rewrite Hrun. simpl. rewrite insert_insert_eq, <- app_assoc. simpl.
    split; [done|]. split; [congruence|]. split; [simpl in Hlen; lia|].
    split; [done|]. by rewrite Hup.
Qed.

(** Without the repository the loop cannot get through a single file. *)
Lemma upload_loop_no_repo d r names w w' :
  w_hub w !! repo_name r = None ->
  for_each names (upload_file d r) w = (Ok tt, w') ->
  names = [] /\ w' = w.
Proof.
  intros Hr Hrun. destruct names as [|f names]; simpl in Hrun.
  - by injection Hrun as <-.
  - exfalso. revert Hrun.
    unfold bind at 1, upload_file, bind at 1, file_read.
    destruct (w_fs w !! d) as [files|]; [|done].
    destruct (files !! f) as [content|]; [|done].
    unfold try_except, bind, hub_get_contents, hub_create_file.
    rewrite !hub_op_run. simpl. unfold Hub.get_contents. rewrite Hr. simpl.
    rewrite hub_op_run. simpl. unfold Hub.create_file. rewrite Hr. done.
Qed.

Lemma listdir_names (files : gmap string string) :
  Forall (fun f => is_Some (files !! f)) ((map_to_list files).*1).
Proof.
  apply Forall_forall. intros f [[f' c] [-> Hin]]%list_elem_of_fmap.
  apply elem_of_map_to_list in Hin. by eexists.
Qed.

Lemma hub_create_file_run (r : repository) path msg content w :
  hub_create_file r path msg content w =
    (fst (Hub.create_file r path msg content (w_hub w)),
     World (w_fs w) (w_heap w) (snd (Hub.create_file r path msg content (w_hub w)))
           (w_nreq w) (w_trace w ++ [EvHub (CreateFile (repo_name r) path msg content)])).
Proof. unfold hub_create_file. by rewrite hub_op_run. Qed.

Lemma hub_get_commits_run (r : repository) w :
  hub_get_commits r w =
    (fst (Hub.get_commits r (w_hub w)),
     World (w_fs w) (w_heap w) (w_hub w) (w_nreq w)
           (w_trace w ++ [EvHub (GetCommits (repo_name r))])).
Proof.
  unfold hub_get_commits. rewrite hub_op_run. simpl. f_equal. f_equal.
  unfold Hub.get_commits. by repeat case_match.
Qed.

(** The part of [upload_files_to_repo] after the bootstrap files, when it
    returns: the local directory exists and is unchanged, the repository
    exists and has the local content for every local file, keeps every
    path it had, and has a commit. *)
Lemma upload_rest_ok d r w c w1 :
  (let* names := os_listdir d in
   for_each names (upload_file d r) >>
   let* commits := hub_get_commits r in
   match commits with
   | c :: _ => ret c
   | [] => raise IndexError
   end) w = (Ok c, w1) ->
  exists files rs rs1,
    w_fs w !! d = Some files /\ w_fs w1 = w_fs w
    /\ w_hub w !! repo_name r = Some rs
    /\ w_hub w1 !! repo_name r = Some rs1
    /\ (forall f, is_Some (files !! f) -> Hub.files rs1 !! f = files !! f)
    /\ (forall p, is_Some (Hub.files rs !! p) -> is_Some (Hub.files rs1 !! p))
    /\ Hub.commits rs1 <> [].
Proof.
  unfold bind at 1, os_listdir.
  destruct (w_fs w !! d) as [files|] eqn:Hd; [|done].
  destruct (w_hub w !! repo_name r) as [rs|] eqn:Hr.
  - destruct (upload_loop_hub d r files _ rs w Hd (listdir_names files) Hr)
      as (rs1 & evs & Hloop & Hfiles & _).
    rewrite (bind_ok _ _ _ _ _ Hloop). unfold bind. rewrite hub_get_commits_run.
    simpl. unfold Hub.get_commits. simpl. rewrite lookup_insert_eq.
    destruct (Hub.commits rs1) as [|c1 cs] eqn:Hcs; simpl; [done|].
    intros [= <- <-]. exists files, rs, rs1. simpl.
    rewrite lookup_insert_eq. repeat split; try done.
    + intros f [content Hf]. rewrite Hfiles, decide_True; [done|].
      apply list_elem_of_fmap. exists (f, content). split; [done|].
      by apply elem_of_map_to_list.
    + intros p Hp. rewrite Hfiles. destruct (decide _) as [Hin|_]; [|done].
      apply list_elem_of_fmap in Hin as [[f' c'] [-> Hin]].
      apply elem_of_map_to_list in Hin. by eexists.
    + by rewrite Hcs.
  - unfold bind at 1.
    destruct (for_each _ _ w) as [[[]|e] w'] eqn:Hloop; [|done].
    destruct (upload_loop_no_repo _ _ _ _ _ Hr Hloop) as [_ ->].
    unfold bind. rewrite hub_get_commits_run. simpl.
    unfold Hub.get_commits. by rewrite Hr.
Qed.

(** The same part on a store that already has the local content of every
    local file and at least one commit: it returns, every file goes through
    the update path, nothing is created, and the files of the repository are
    what they were. *)
Lemma upload_rest_synced d r files rs w :
  w_fs w !! d = Some files ->
  w_hub w !! repo_name r = Some rs ->
  (forall f, is_Some (files !! f) -> Hub.files rs !! f = files !! f) ->
  Hub.commits rs <> [] ->
  exists c w' rs' evs,
    (let* names := os_listdir d in
     for_each names (upload_file d r) >>
     let* commits := hub_get_commits r in
     match commits with
     | c :: _ => ret c
     | [] => raise IndexError
     end) w = (Ok c, w')
    /\ w_trace w' = w_trace w ++ evs
    /\ w_hub w' !! repo_name r = Some rs'
    /\ Hub.files rs' = Hub.files rs
    /\ created_paths evs = []
    /\ updated_paths evs = (map_to_list files).*1.
Proof.
  intros Hd Hr Hsync Hcs. unfold bind at 1, os_listdir. rewrite Hd.
  destruct (upload_loop_synced d r files _ rs w Hd (listdir_names files) Hr)
    as (rs' & evs & Hloop & Hfiles & Hlen & Hcr & Hup).
  { intros f Hf. apply Hsync.
    by apply (proj1 (Forall_forall _ _) (listdir_names files)). }
  rewrite (bind_ok _ _ _ _ _ Hloop). unfold bind. rewrite hub_get_commits_run.
  simpl. unfold Hub.get_commits. simpl. rewrite lookup_insert_eq.
  destruct (Hub.commits rs') as [|c1 cs] eqn:Hcs'.
  { destruct (Hub.commits rs); [done|simpl in Hlen; lia]. }
  simpl. eexists c1, _, rs', (evs ++ [EvHub (GetCommits (repo_name r))]).
  split; [reflexivity|]. simpl. rewrite lookup_insert_eq, <- app_assoc.
  rewrite created_paths_app, updated_paths_app, Hcr, Hup. simpl.
  by rewrite app_nil_r.
Qed.

(** On any round but the first, publishing again with the same local
    files succeeds, takes the update path for every file, creates nothing,
    and leaves the files of the repository as the first publish left them. *)
Lemma upload_files_rerun_later_rounds task_id r round_num w c w1 :
  round_num <> 1 ->
  upload_files_to_repo task_id r round_num w = (Ok c, w1) ->
  exists c' w2 evs,
    upload_files_to_repo task_id r round_num w1 = (Ok c', w2)
    /\ Hub.files_of (repo_name r) (w_hub w2) = Hub.files_of (repo_name r) (w_hub w1)
    /\ w_trace w2 = w_trace w1 ++ evs
    /\ created_paths evs = []
    /\ forall files, w_fs w !! ("task-" +:+ task_id) = Some files ->
         updated_paths evs = (map_to_list files).*1.
Proof.
  intros Hround. unfold upload_files_to_repo.
  destruct (Z.eqb_spec round_num 1) as [->|_]; [done|].
  unfold bind at 1 3, ret. intros Hrun.
  destruct (upload_rest_ok _ _ _ _ _ Hrun)
    as (files & rs & rs1 & Hd & Hfs & Hr & Hr1 & Hsync & _ & Hcs).
  rewrite <- Hfs in Hd.
  destruct (upload_rest_synced _ r files rs1 w1 Hd Hr1 Hsync Hcs)
    as (c' & w2 & rs2 & evs & Hrun2 & Htr & Hr2 & Hfiles & Hcr & Hup).
  exists c', w2, evs. split; [exact Hrun2|].
  unfold Hub.files_of. rewrite Hr1, Hr2.
  repeat split; try done.
  intros files' Hd'. rewrite Hfs in Hd. congruence.
Qed.

(** C2 at the input where the code departs from it: on round 1, after a
    publish that succeeded, publishing again with the same local files
    raises.  The first call of the second run, the unconditional creation
    of [LICENSE], is refused by the store (422) because the first run
    created that file, and nothing around it catches the exception. *)
Theorem upload_files_rerun_round1 task_id r w c w1 :
  upload_files_to_repo task_id r 1 w = (Ok c, w1) ->
  upload_files_to_repo task_id r 1 w1 =
    (Raise (GithubException 422),
     logged [EvHub (CreateFile (repo_name r) "LICENSE" "Add LICENSE" "MIT License")] w1).
Proof.
  unfold upload_files_to_repo. simpl. intros Hrun.
  assert (Hlicense : exists rs1,
    w_hub w1 !! repo_name r = Some rs1 /\ is_Some (Hub.files rs1 !! "LICENSE")).
  { revert Hrun. unfold bind at 1 2. rewrite hub_create_file_run.
    unfold Hub.create_file at 1 2.
    destruct (w_hub w !! repo_name r) as [rs|] eqn:Hr; [|done].
    destruct (Hub.files rs !! "LICENSE") eqn:Hl; [done|]. simpl.
    rewrite hub_create_file_run. unfold Hub.create_file at 1 2. simpl.
    rewrite lookup_insert_eq.
    destruct (Hub.files (Hub.push _ _ _ rs) !! "README.md") eqn:Hm; [done|]. simpl.
    intros Hrest.
    destruct (upload_rest_ok _ _ _ _ _ Hrest)
      as (files & rsb & rs1 & _ & _ & Hrb & Hr1 & _ & Hkeep & _).
    exists rs1. split; [done|]. apply Hkeep.
    simpl in Hrb. rewrite lookup_insert_eq in Hrb. injection Hrb as <-.
    simpl. rewrite lookup_insert_ne by done. rewrite lookup_insert_eq. by eexists. }
  destruct Hlicense as (rs1 & Hr1 & [lic Hlic]).
  unfold bind. rewrite hub_create_file_run. unfold Hub.create_file.
  by rewrite Hr1, Hlic.
Qed.

End Publish.

Lemma upload_files_rerun_round1_witness :
  fst (upload_files_to_repo "t1" (Hub.handle "task-t1") 1
         (snd (upload_files_to_repo "t1" (Hub.handle "task-t1") 1 world_after_round1)))
    = Raise (GithubException 422).
Proof.
  rewrite (upload_files_rerun_round1 "t1" (Hub.handle "task-t1") world_after_round1
             (Commit "c2" "Add index.html")
             (snd (upload_files_to_repo "t1" (Hub.handle "task-t1") 1 world_after_round1))).
  - reflexivity.
  - vm_compute. reflexivity.
Defined.

(** The same two publishes on round 2: the second one succeeds and leaves
    the files of the repository as they were. *)
Example upload_files_rerun_round2 :
  let w1 := snd (upload_files_to_repo "t1" (Hub.handle "task-t1") 2 world_after_round1) in
  let w2 := snd (upload_files_to_repo "t1" (Hub.handle "task-t1") 2 w1) in
  fst (upload_files_to_repo "t1" (Hub.handle "task-t1") 2 w1)
    = Ok (Commit "c1" "Update index.html")
  /\ Hub.files_of "task-t1" (w_hub w2) = Hub.files_of "task-t1" (w_hub w1).
Proof. vm_compute. split; reflexivity. Qed.

(** ** The front door *)

Lemma handle_request_cases configured request :
  (exists s data,
     is_json request = true /\ s <> EmptyString
     /\ get_json request = BodyObject (PStr s) data /\ configured = Some s
     /\ handle_request configured request =
          ((200, JsonReply "message" "Request received and is being processed"), [data]))
  \/ ((forall data,
         ~ (is_json request = true
            /\ exists s, s <> EmptyString /\ get_json request = BodyObject (PStr s) data
                         /\ configured = Some s))
      /\ snd (handle_request configured request) = []
      /\ fst (fst (handle_request configured request)) =
           if negb (is_json request) then 400
           else match get_json request with
                | BodyMalformed => 400
                | BodyNotObject => 500
                | BodyObject _ _ => 401
                end).
Proof.
  unfold handle_request.
  destruct (is_json request); cbn [negb];
    [|right; split; [by intros data [? _]|done]].
  destruct (get_json request) as [| |secret data] eqn:Hbody.
  - right. split; [by intros data (_ & s0 & _ & ? & _)|done].
  - right. split; [by intros data (_ & s0 & _ & ? & _)|done].
  - destruct secret as [|b|z|[|c s]].
    + right. split; [by intros data' (_ & s0 & _ & ? & _)|done].
    + right. split; [by intros data' (_ & s0 & _ & ? & _)|]. by destruct b.
    + right. split; [by intros data' (_ & s0 & _ & ? & _)|]. simpl.
      by destruct (z =? 0).
    + right. split; [|done]. intros data' (_ & s0 & Hs & [= <- _] & _). done.
    + change (truthy (PStr (String c s))) with true. cbn [negb orb].
      unfold differs_from_env.
      destruct configured as [s'|];
        [|right; split; [by intros data' (_ & s0 & _ & _ & ?)|done]].
      destruct (String.eqb_spec (String c s) s') as [Heq|Hne]; cbn [negb].
      * subst s'. left. by exists (String c s), data.
      * right. split; [|done]. intros data' (_ & s0 & _ & [= Hs0 _] & [= Hs']).
        congruence.
Qed.

(** A request is accepted, that is answered 200 with exactly one
    background job on the data of the request, exactly when its content
    type is JSON, its body is a JSON object and the secret of that object
    is a non-empty string equal to the configured one.  Every other
    request starts nothing and is answered 400 when the content type is
    not JSON or the body does not parse, 500 when the body is JSON but not
    an object, and 401 when it is an object. *)
Theorem handle_request_accepts_iff configured request :
  let accepted data :=
    is_json request = true
    /\ exists s, s <> EmptyString /\ get_json request = BodyObject (PStr s) data
                 /\ configured = Some s in
  (forall data,
     accepted data <->
       handle_request configured request =
         ((200, JsonReply "message" "Request received and is being processed"), [data]))
  /\ ((forall data, ~ accepted data) ->
      snd (handle_request configured request) = []
      /\ fst (fst (handle_request configured request)) =
           if negb (is_json request) then 400
           else match get_json request with
                | BodyMalformed => 400
                | BodyNotObject => 500
                | BodyObject _ _ => 401
                end).
Proof.
  intros accepted. unfold accepted.
  destruct (handle_request_cases configured request)
    as [(s & data & Hj & Hs & Hbody & Hconf & Hrun) | (Hno & Hnone & Hstatus)].
  - split.
    + intros data'. split.
      * intros (_ & s' & _ & Hbody' & _). rewrite Hbody in Hbody'.
        injection Hbody' as _ <-. exact Hrun.
      * intros Hrun'. rewrite Hrun in Hrun'. injection Hrun' as <-.
        split; [done|]. by exists s.
    + intros Hno. exfalso. apply (Hno data). split; [done|]. by exists s.
  - split; [|done]. intros data. split; [intros Hacc; by destruct (Hno data)|].
    intros Hrun. rewrite Hrun in Hnone. discriminate Hnone.
Qed.

(** When [SHARED_SECRET] is unset or empty, no request starts a background
    job, whatever secret it carries. *)
Theorem handle_request_fails_closed configured request :
  configured = None \/ configured = Some EmptyString ->
  snd (handle_request configured request) = []
  /\ fst (fst (handle_request configured request)) <> 200.
Proof.
  intros Hconf. unfold handle_request.
  destruct (is_json request); simpl; [|done].
  destruct (get_json request) as [| |secret data]; [done|done|].
  destruct secret as [|b|z|s]; simpl; try done.
  - by destruct b.
  - by destruct (z =? 0).
  - destruct s as [|c s]; simpl; [done|].
    by destruct Hconf as [-> | ->].
Qed.

Lemma handle_request_accepts_iff_witness :
  handle_request (Some "s3cret") (demo_flask_request (PStr "s3cret")) =
    ((200, JsonReply "message" "Request received and is being processed"),
     [demo_request 1 []])
  /\ (snd (handle_request (Some "s3cret") (demo_flask_request (PStr "guess"))) = []
      /\ fst (fst (handle_request (Some "s3cret") (demo_flask_request (PStr "guess"))))
         = 401)
  /\ (snd (handle_request (Some "s3cret") (FlaskRequest true BodyNotObject)) = []
      /\ fst (fst (handle_request (Some "s3cret") (FlaskRequest true BodyNotObject)))
         = 500).
Proof.
  split; [|split].
  - apply (handle_request_accepts_iff (Some "s3cret") (demo_flask_request (PStr "s3cret"))).
    split; [reflexivity|]. exists "s3cret". by repeat split.
  - apply (handle_request_accepts_iff (Some "s3cret") (demo_flask_request (PStr "guess"))).
    intros data (_ & s & _ & [= <- _] & [=]).
  - apply (handle_request_accepts_iff (Some "s3cret") (FlaskRequest true BodyNotObject)).
    intros data (_ & s & _ & [=] & _).
Defined.

Lemma handle_request_fails_closed_witness :
  snd (handle_request None (demo_flask_request (PStr "anything"))) = []
  /\ fst (fst (handle_request None (demo_flask_request (PStr "anything")))) <> 200.
Proof.
  apply (handle_request_fails_closed None (demo_flask_request (PStr "anything"))).
  by left.
Defined.

(** ** More on the content generator *)




Section MoreGeneration.

Context {G : Type}.
Variable E : environment.







(** When several attachments declare the same name the last one wins:
    after the loop over attachments that are passed over or well-formed (a
    plain file name, a payload that decodes), the file has the decoded
    content of the last well-formed attachment of that name. *)
Theorem attachments_last_writer d pre a post name data (w : world G) :
  Forall (acceptable E) (pre ++ a :: post) ->
  well_formed E a name data ->
  (forall a', a' ∈ post -> dict_get a' "name" <> PStr name) ->
  is_Some (w_fs w !! d) ->
  exists w',
    for_each (pre ++ a :: post) (save_attachment E d) w = (Ok tt, w')
    /\ file_of d name w' = Some data.
Proof.
  intros [Hpre [Ha Hpost]%Forall_cons]%Forall_app Hwf Hlater Hd.
  destruct (attachments_complete E d pre w Hpre Hd) as [w1 Hrun1].
  destruct (attachments_frame E _ _ _ _ _ Hrun1) as [_ Hd1].
  destruct (Hd1 Hd) as [files1 Hfiles1].
  pose proof (save_attachment_write E d a name data files1 w1 Hwf Hfiles1) as Hrun2.
  set (w2 := set_fs _ w1) in Hrun2.
  assert (Hd2 : is_Some (w_fs w2 !! d)) by (simpl; rewrite lookup_insert_eq; by eexists).
  destruct (attachments_complete E d post w2 Hpost Hd2) as [w3 Hrun3].
  exists w3. split.
  - rewrite for_each_app, (bind_ok _ _ _ _ _ Hrun1). simpl.
    by rewrite (bind_ok _ _ _ _ _ Hrun2).
  - rewrite (attachments_keep E d d name post w2 _ w3 Hrun3).
    + unfold file_of. simpl. rewrite lookup_insert_eq. apply lookup_insert_eq.
    + intros a' Hin. apply acceptable_not_stored; [|by apply Hlater].
      rewrite Forall_forall in Hpost. by apply Hpost.
Qed.

End MoreGeneration.

Section GenerationOutcomes.

Context {G : Type}.
Variable E : environment.

(** When the reply is a JSON object whose [html] field is a string, the
    instruction was sent exactly once, and: if the string can be encoded,
    [generate_app] returns and the string is the document, whatever the
    attachments wrote under [index.html]; if it cannot (it has a lone
    surrogate), [generate_app] raises [UnicodeEncodeError] at the write and
    leaves an empty document. *)
Theorem generate_app_valid_reply brief atts task_id round_num prompt content fields html
    (w w1 : world G) :
  let d := "task-" +:+ task_id in
  for_each atts (save_attachment E d) (snd (os_makedirs d w)) = (Ok tt, w1) ->
  build_prompt brief d round_num w1 = (Ok prompt, w1) ->
  chat_completion E prompt = Ok content ->
  json_loads E content = Ok (JObject fields) ->
  assoc "html" fields = Some (JString html) ->
  (valid_utf8 html = true ->
     exists w',
       generate_app E brief atts task_id round_num w = (Ok tt, w')
       /\ document_of task_id w' = Some html
       /\ w_trace w' = w_trace w ++ [EvChat prompt])
  /\ (valid_utf8 html = false ->
       exists w',
         generate_app E brief atts task_id round_num w = (Raise UnicodeEncodeError, w')
         /\ document_of task_id w' = Some EmptyString
         /\ w_trace w' = w_trace w ++ [EvChat prompt]).
Proof.
  intros d Hatt Hprompt Hchat Hloads Hfield.
  destruct (generate_app_sends E brief atts task_id round_num prompt w w1 Hatt Hprompt)
    as (r & w'' & Hrun' & Htr).
  split; intros Hutf.
  - destruct (generate_app_writes E brief atts task_id round_num prompt content html
                w w1 Hatt Hprompt Hchat) as (w' & Hrun & Hdoc).
    { rewrite (parse_html_object _ _ _ _ Hloads), Hfield. done. }
    { exact Hutf. }
    exists w'. rewrite Hrun in Hrun'. by injection Hrun' as _ <-.
  - revert Hrun' Htr.
    rewrite (generate_app_tail E _ _ _ _ _ _ _ Hatt Hprompt), Hchat. fold d.
    rewrite (bind_ok _ _ _ _ _ (parse_html_object E content fields _ Hloads)), Hfield.
    destruct (os_makedirs_run d w) as (_ & Hd0 & _).
    destruct (attachments_frame E _ _ _ _ _ Hatt) as [_ Hd].
    destruct (Hd Hd0) as [files Hfiles]. simpl.
    unfold file_write_text. rewrite Hutf. unfold bind, file_write, raise. simpl.
    rewrite Hfiles. intros [= <- <-] Htr.
    eexists. split; [reflexivity|]. split; [|exact Htr].
    unfold document_of. fold d. simpl.
    rewrite lookup_insert_eq. apply lookup_insert_eq.
Qed.

(** A failure of the generation service is not caught: [generate_app]
    raises it, after the attachments were saved and with the previous
    document still in place. *)
Theorem generate_app_service_error brief atts task_id round_num prompt e (w w1 : world G) :
  let d := "task-" +:+ task_id in
  for_each atts (save_attachment E d) (snd (os_makedirs d w)) = (Ok tt, w1) ->
  build_prompt brief d round_num w1 = (Ok prompt, w1) ->
  chat_completion E prompt = Raise e ->
  exists w',
    generate_app E brief atts task_id round_num w = (Raise e, w')
    /\ w_fs w' = w_fs w1
    /\ w_trace w' = w_trace w ++ [EvChat prompt].
Proof.
  intros d Hatt Hprompt Hchat.
  rewrite (generate_app_tail E _ _ _ _ _ _ _ Hatt Hprompt), Hchat.
  eexists. split; [reflexivity|]. split; [done|]. simpl.
  destruct (attachments_frame E _ _ _ _ _ Hatt) as [-> _].
  by destruct (os_makedirs_run d w) as (_ & _ & ->).
Qed.

(** On a round above 1 without a document in the task directory,
    [generate_app] raises [FileNotFoundError] when it tries to read it back:
    nothing is sent to the generation service and no document is written. *)
Theorem generate_app_missing_previous brief atts task_id round_num (w w1 : world G) :
  let d := "task-" +:+ task_id in
  1 < round_num ->
  for_each atts (save_attachment E d) (snd (os_makedirs d w)) = (Ok tt, w1) ->
  document_of task_id w1 = None ->
  generate_app E brief atts task_id round_num w = (Raise FileNotFoundError, w1)
  /\ w_trace w1 = w_trace w.
Proof.
  intros d Hround Hatt Hdoc. split.
  - unfold generate_app. fold d.
    destruct (os_makedirs_run d w) as (Hmk & _ & _).
    rewrite (bind_ok _ _ _ _ _ Hmk), (bind_ok _ _ _ _ _ Hatt).
    apply bind_raise. unfold build_prompt.
    destruct (Z.ltb_spec 1 round_num); [|lia].
    apply bind_raise. unfold file_read_text, file_read.
    unfold document_of in Hdoc. fold d in Hdoc.
    destruct (w_fs w1 !! d); [|done]. by rewrite Hdoc.
  - destruct (attachments_frame E _ _ _ _ _ Hatt) as [-> _].
    by destruct (os_makedirs_run d w) as (_ & _ & ->).
Qed.

(** When the reply is a JSON object whose [html] field is not a string
    ([null], a number, a list, an object), [generate_app] raises
    [TypeError] at the write, after the file was opened for writing: the
    document that was in place is lost and an empty one is left. *)
Theorem generate_app_non_string_html brief atts task_id round_num prompt content fields v
    (w w1 : world G) :
  let d := "task-" +:+ task_id in
  for_each atts (save_attachment E d) (snd (os_makedirs d w)) = (Ok tt, w1) ->
  build_prompt brief d round_num w1 = (Ok prompt, w1) ->
  chat_completion E prompt = Ok content ->
  json_loads E content = Ok (JObject fields) ->
  assoc "html" fields = Some v ->
  (forall s, v <> JString s) ->
  exists w',
    generate_app E brief atts task_id round_num w = (Raise TypeError, w')
    /\ document_of task_id w' = Some EmptyString.
Proof.
  intros d Hatt Hprompt Hchat Hloads Hfield Hv.
  rewrite (generate_app_tail E _ _ _ _ _ _ _ Hatt Hprompt), Hchat. fold d.
  rewrite (bind_ok _ _ _ _ _ (parse_html_object E content fields _ Hloads)), Hfield.
  destruct (os_makedirs_run d w) as (_ & Hd0 & _).
  destruct (attachments_frame E _ _ _ _ _ Hatt) as [_ Hd].
  destruct (Hd Hd0) as [files Hfiles]. simpl.
  assert (Hdoc : forall fs heap hub n tr,
    document_of task_id
      (World (<[d := <["index.html" := EmptyString]> files]> fs) heap hub n tr : world G)
    = Some EmptyString).
  { intros. unfold document_of. fold d. simpl.
    rewrite lookup_insert_eq. apply lookup_insert_eq. }
  unfold file_write_text, bind, file_write, raise.
  destruct v; simpl; rewrite ?Hfiles; try (eexists; split; [reflexivity|apply Hdoc]).
  by destruct (Hv s).
Qed.


End GenerationOutcomes.

Lemma generate_app_valid_reply_witness :
  (exists w',
     generate_app (env_of html_reply peer_live) "a clock" [attachment_ok] "t1" 1 fresh_world
       = (Ok tt, w')
     /\ document_of "t1" w' = Some "<h1>v1</h1>"
     /\ w_trace w' = w_trace fresh_world ++ [EvChat (base_prompt "a clock")])
  /\ exists w',
       generate_app env_surrogate_html "a clock" [] "t1" 1 world_after_round1
         = (Raise UnicodeEncodeError, w')
       /\ document_of "t1" w' = Some EmptyString
       /\ w_trace w' = w_trace world_after_round1 ++ [EvChat (base_prompt "a clock")].
Proof.
  split.
  - apply (generate_app_valid_reply (env_of html_reply peer_live) "a clock" [attachment_ok]
             "t1" 1 (base_prompt "a clock") html_reply [("html", JString "<h1>v1</h1>")]
             "<h1>v1</h1>" fresh_world
             (snd (for_each [attachment_ok]
                     (save_attachment (env_of html_reply peer_live) "task-t1")
                     (snd (os_makedirs "task-t1" fresh_world))))); reflexivity.
  - apply (generate_app_valid_reply env_surrogate_html "a clock" [] "t1" 1
             (base_prompt "a clock") "{}" [("html", JString lone_surrogate)]
             lone_surrogate world_after_round1 world_after_round1); reflexivity.
Defined.

Lemma generate_app_service_error_witness :
  exists w',
    generate_app env_service_down "a clock" [] "t1" 2 world_after_round1
      = (Raise OpenAIError, w')
    /\ w_fs w' = w_fs world_after_round1
    /\ w_trace w' = w_trace world_after_round1
         ++ [EvChat (base_prompt "a clock" +:+ revision_context "<h1>v1</h1>")].
Proof.
  apply (generate_app_service_error env_service_down "a clock" [] "t1" 2
           (base_prompt "a clock" +:+ revision_context "<h1>v1</h1>") OpenAIError
           world_after_round1 world_after_round1); reflexivity.
Defined.

Lemma generate_app_missing_previous_witness :
  generate_app (env_of html_reply peer_live) "a clock" [] "t1" 2 fresh_world
    = (Raise FileNotFoundError, snd (os_makedirs "task-t1" fresh_world))
  /\ w_trace (snd (os_makedirs "task-t1" fresh_world)) = w_trace fresh_world.
Proof.
  apply (generate_app_missing_previous (env_of html_reply peer_live) "a clock" [] "t1" 2
           fresh_world (snd (os_makedirs "task-t1" fresh_world)));
    [lia|reflexivity|reflexivity].
Defined.

Lemma generate_app_non_string_html_witness :
  exists w',
    generate_app env_null_html "a clock" [] "t1" 2 world_after_round1
      = (Raise TypeError, w')
    /\ document_of "t1" w' = Some EmptyString.
Proof.
  apply (generate_app_non_string_html env_null_html "a clock" [] "t1" 2
           (base_prompt "a clock" +:+ revision_context "<h1>v1</h1>") "{}"
           [("html", JNull)] JNull world_after_round1 world_after_round1);
    try reflexivity.
  intros s. discriminate.
Defined.



(** The code at the same input with the file behind another path: the
    attachment named [./index.html] replaces the document, though no
    attachment is named [index.html]. *)
Example attachment_path_replaces_document :
  dict_get attachment_dot_index "name" <> PStr "index.html"
  /\ file_of "task-t1" "index.html"
       (snd (for_each [attachment_dot_index]
               (save_attachment (env_of "{}" peer_live) "task-t1") world_after_round1))
     = Some "yo".
Proof. split; [vm_compute; discriminate|reflexivity]. Qed.

Lemma attachments_last_writer_witness :
  exists w',
    for_each ([attachment_ok] ++ attachment_again :: [attachment_unnamed])
             (save_attachment (env_of "{}" peer_live) "task-t1") world_after_round1
      = (Ok tt, w')
    /\ file_of "task-t1" "hi.txt" w' = Some "yo".
Proof.
  apply (attachments_last_writer (env_of "{}" peer_live) "task-t1" [attachment_ok]
           attachment_again [attachment_unnamed] "hi.txt" "yo" world_after_round1).
  - apply Forall_cons. split; [right; exists "hi.txt", "hi"; exact attachment_ok_well_formed|].
    apply Forall_cons. split.
    + right. exists "hi.txt", "yo". exists "data:text/plain;base64", "eW8=".
      repeat split; reflexivity.
    + apply Forall_cons. split; [|by apply Forall_nil]. left. left. reflexivity.
  - exists "data:text/plain;base64", "eW8=". repeat split; reflexivity.
  - intros a [->|Hin%elem_of_nil]%elem_of_cons; [|done]. vm_compute. discriminate.
  - by eexists.
Defined.

(** ** More on the store *)

Section MoreAcquisition.

Context {G : Type} `{GithubClient G}.

(** A creation that fails for any reason but status 422 is not followed by
    a fetch: an exception with another status is raised again as it is,
    and one without a status turns into [AttributeError] at the test of
    [e.status]. *)
Theorem create_repo_other_failure task_id e g (w : world G) :
  let name := "task-" +:+ task_id in
  user_create_repo name (w_hub w) = (Raise e, g) ->
  exn_status e <> Some 422 ->
  create_repo task_id w =
    (Raise (match exn_status e with Some _ => e | None => AttributeError end),
     World (w_fs w) (w_heap w) g (w_nreq w) (w_trace w ++ [EvHub (CreateRepo name)])).
Proof.
  intros name Hcreate Hst. unfold create_repo. fold name.
  unfold try_except, hub_create_repo. rewrite hub_op_run, Hcreate. simpl.
  destruct (exn_status e) as [st|]; [|done].
  destruct (Z.eqb_spec st 422) as [->|_]; done.
Qed.

(** In the publish loop a failure of the update is caught like a missing
    file: the file is then created, and what the creation answers is the
    outcome of the iteration. *)
Theorem upload_file_update_failure d r f files content existing e g1 g2 (w : world G) :
  w_fs w !! d = Some files ->
  files !! f = Some content ->
  repo_get_contents r f (w_hub w) = (Ok existing, g1) ->
  repo_update_file r (cf_path existing) ("Update " +:+ f) content (cf_sha existing) g1
    = (Raise e, g2) ->
  upload_file d r f w =
    (fst (repo_create_file r f ("Add " +:+ f) content g2),
     World (w_fs w) (w_heap w) (snd (repo_create_file r f ("Add " +:+ f) content g2))
           (w_nreq w)
           (w_trace w ++
              [EvHub (GetContents (repo_name r) f);
               EvHub (UpdateFile (repo_name r) (cf_path existing) ("Update " +:+ f)
                                 content (cf_sha existing));
               EvHub (CreateFile (repo_name r) f ("Add " +:+ f) content)])).
Proof.
  intros Hd Hf Hget Hupdate. unfold upload_file, bind at 1, file_read. rewrite Hd, Hf.
  unfold try_except, bind, hub_get_contents, hub_update_file, hub_create_file.
  rewrite !hub_op_run. simpl. rewrite Hget. simpl.
  rewrite hub_op_run. simpl. rewrite Hupdate. simpl.
  rewrite hub_op_run. simpl. by rewrite <- !app_assoc.
Qed.

End MoreAcquisition.

Lemma create_repo_other_failure_witness :
  fst (@create_repo unit outage_client "t1" (demo_world tt)) = Raise (GithubException 503).
Proof.
  rewrite (@create_repo_other_failure unit outage_client "t1" (GithubException 503) tt
             (demo_world tt)).
  - reflexivity.
  - reflexivity.
  - simpl. intros [=].
Defined.

Lemma upload_file_update_failure_witness :
  fst (@upload_file unit conflict_client "task-t1" (Hub.handle "task-t1") "index.html"
         (World {[ "task-t1" := {[ "index.html" := "<h1>v2</h1>" ]} ]} ∅ tt 0 []))
    = Raise (GithubException 422).
Proof.
  rewrite (@upload_file_update_failure unit conflict_client "task-t1" (Hub.handle "task-t1")
             "index.html" {[ "index.html" := "<h1>v2</h1>" ]} "<h1>v2</h1>"
             (ContentFile "index.html" "stale") (GithubException 409) tt tt);
    reflexivity.
Defined.

Section MorePublish.

Implicit Types w : world hubs.

(** On the reference store [create_repo] always returns the repository:
    a missing one is created empty, an existing one is fetched and left as
    it is, so that a second call changes nothing. *)
Theorem create_repo_hub task_id w :
  let name := "task-" +:+ task_id in
  exists w',
    create_repo task_id w = (Ok (Hub.handle name), w')
    /\ w_fs w' = w_fs w
    /\ w_hub w' = match w_hub w !! name with
                  | Some _ => w_hub w
                  | None => <[name := Hub.RepoState ∅ []]> (w_hub w)
                  end
    /\ exists w'', create_repo task_id w' = (Ok (Hub.handle name), w'')
                   /\ w_hub w'' = w_hub w'.
Proof.
  intros name.
  assert (Hexisting : forall w0 rs, w_hub w0 !! name = Some rs ->
    create_repo task_id w0 =
      (Ok (Hub.handle name),
       logged [EvHub (CreateRepo name); EvHub (GetRepo name)] w0)).
  { intros w0 rs Hr. unfold create_repo. fold name.
    unfold try_except, hub_create_repo. rewrite hub_op_run. simpl.
    unfold Hub.create_repo. rewrite Hr. simpl.
    unfold hub_get_repo. rewrite hub_op_run. simpl.
    unfold Hub.get_repo. rewrite Hr. simpl. unfold logged.
    by rewrite <- app_assoc. }
  destruct (w_hub w !! name) as [rs|] eqn:Hr.
  - eexists. split; [exact (Hexisting w rs Hr)|].
    split; [done|]. split; [done|].
    eexists. split.
    { exact (Hexisting (logged [EvHub (CreateRepo name); EvHub (GetRepo name)] w) rs Hr). }
    done.
  - assert (Hrun : create_repo task_id w =
      (Ok (Hub.handle name),
       World (w_fs w) (w_heap w) (<[name := Hub.RepoState ∅ []]> (w_hub w)) (w_nreq w)
             (w_trace w ++ [EvHub (CreateRepo name)]))).
    { unfold create_repo. fold name.
      unfold try_except, hub_create_repo. rewrite hub_op_run. simpl.
      unfold Hub.create_repo. by rewrite Hr. }
    eexists. split; [exact Hrun|]. split; [done|]. split; [done|].
    eexists. split.
    { eapply Hexisting. simpl. apply lookup_insert_eq. }
    done.
Qed.

End MorePublish.

Section PublishOutcomes.

Implicit Types w : world hubs.

Lemma listdir_elem (files : gmap string string) p :
  p ∈ (map_to_list files).*1 <-> is_Some (files !! p).
Proof.
  split.
  - intros [[f c] [-> Hin]]%list_elem_of_fmap.
    apply elem_of_map_to_list in Hin. by eexists.
  - intros [c Hp]. apply list_elem_of_fmap. exists (p, c). split; [done|].
    by apply elem_of_map_to_list.
Qed.

(** The part of [upload_files_to_repo] after the bootstrap files, when it
    returns: where it leaves the world. *)
Lemma upload_rest_result d r w c w1 :
  (let* names := os_listdir d in
   for_each names (upload_file d r) >>
   let* commits := hub_get_commits r in
   match commits with
   | c :: _ => ret c
   | [] => raise IndexError
   end) w = (Ok c, w1) ->
  exists files rs rs1,
    w_fs w !! d = Some files
    /\ w_hub w !! repo_name r = Some rs
    /\ w_fs w1 = w_fs w /\ w_heap w1 = w_heap w /\ w_nreq w1 = w_nreq w
    /\ w_hub w1 = <[repo_name r := rs1]> (w_hub w)
    /\ (forall p, Hub.files rs1 !! p =
                  match files !! p with Some x => Some x | None => Hub.files rs !! p end)
    /\ head (Hub.commits rs1) = Some c.
Proof.
  unfold bind at 1, os_listdir.
  destruct (w_fs w !! d) as [files|] eqn:Hd; [|done].
  destruct (w_hub w !! repo_name r) as [rs|] eqn:Hr.
  - destruct (upload_loop_hub d r files _ rs w Hd (listdir_names files) Hr)
      as (rs1 & evs & Hloop & Hfiles & _).
    rewrite (bind_ok _ _ _ _ _ Hloop). unfold bind. rewrite hub_get_commits_run.
    simpl. unfold Hub.get_commits. simpl. rewrite lookup_insert_eq.
    destruct (Hub.commits rs1) as [|c1 cs] eqn:Hcs; simpl; [done|].
    intros [= <- <-]. exists files, rs, rs1. simpl.
    repeat split; try done.
    + intros p. rewrite Hfiles. destruct (files !! p) as [x|] eqn:Hp.
      * rewrite decide_True; [done|]. apply listdir_elem. by eexists.
      * rewrite decide_False; [done|]. intros [x Hx]%listdir_elem. congruence.
    + by rewrite Hcs.
  - unfold bind at 1.
    destruct (for_each _ _ w) as [[[]|e] w'] eqn:Hloop; [|done].
    destruct (upload_loop_no_repo _ _ _ _ _ Hr Hloop) as [_ ->].
    unfold bind. rewrite hub_get_commits_run. simpl.
    unfold Hub.get_commits. by rewrite Hr.
Qed.

(** Whenever a publish returns, on any round: the local files are as they
    were; every local file is in the repository with its local content;
    every path the repository had is still there (a file deleted locally
    is not deleted remotely); other repositories are untouched; and the
    commit returned is the newest commit of the branch. *)
Theorem upload_files_postcondition task_id r round_num w c w1 :
  upload_files_to_repo task_id r round_num w = (Ok c, w1) ->
  exists files rs rs1,
    w_fs w !! ("task-" +:+ task_id) = Some files
    /\ w_fs w1 = w_fs w
    /\ w_hub w !! repo_name r = Some rs
    /\ w_hub w1 !! repo_name r = Some rs1
    /\ (forall f x, files !! f = Some x -> Hub.files rs1 !! f = Some x)
    /\ (forall p, is_Some (Hub.files rs !! p) -> is_Some (Hub.files rs1 !! p))
    /\ (forall n, n <> repo_name r -> w_hub w1 !! n = w_hub w !! n)
    /\ head (Hub.commits rs1) = Some c.
Proof.
  unfold upload_files_to_repo.
  destruct (Z.eqb_spec round_num 1) as [->|_].
  - unfold bind at 1 2. rewrite hub_create_file_run.
    unfold Hub.create_file at 1 2.
    destruct (w_hub w !! repo_name r) as [rs|] eqn:Hr; [|done].
    destruct (Hub.files rs !! "LICENSE") eqn:Hl; [done|]. simpl.
    rewrite hub_create_file_run. unfold Hub.create_file at 1 2. simpl.
    rewrite lookup_insert_eq.
    destruct (Hub.files (Hub.push _ _ _ rs) !! "README.md") eqn:Hm; [done|]. simpl.
    intros Hrest.
    destruct (upload_rest_result _ _ _ _ _ Hrest)
      as (files & rsb & rs1 & Hd & Hrb & Hfs & _ & _ & Hhub & Hfiles & Hhead).
    simpl in *. rewrite lookup_insert_eq in Hrb. injection Hrb as <-.
    exists files, rs, rs1. rewrite Hhub, insert_insert_eq, lookup_insert_eq.
    repeat split; try done.
    + intros f x Hf. by rewrite Hfiles, Hf.
    + intros p [x Hp]. rewrite Hfiles. destruct (files !! p); [by eexists|].
      simpl. destruct (decide (p = "README.md")) as [->|?];
        [rewrite lookup_insert_eq; by eexists|rewrite lookup_insert_ne by done].
      destruct (decide (p = "LICENSE")) as [->|?];
        [rewrite lookup_insert_eq; by eexists|rewrite lookup_insert_ne by done].
      by eexists.
    + intros n Hn. by rewrite !lookup_insert_ne.
  - unfold bind at 1, ret. intros Hrest.
    destruct (upload_rest_result _ _ _ _ _ Hrest)
      as (files & rs & rs1 & Hd & Hr & Hfs & _ & _ & Hhub & Hfiles & Hhead).
    exists files, rs, rs1. rewrite Hhub, lookup_insert_eq.
    repeat split; try done.
    + intros f x Hf. by rewrite Hfiles, Hf.
    + intros p Hp. rewrite Hfiles. by destruct (files !! p).
    + intros n Hn. by rewrite lookup_insert_ne.
Qed.

(** The first publish of round 1, on a repository that has neither
    bootstrap file: it returns, and the repository then holds the local
    files, the licence and the readme where no local file has their name,
    and whatever else it held. *)
Theorem upload_files_first_round task_id r files rs w :
  w_fs w !! ("task-" +:+ task_id) = Some files ->
  w_hub w !! repo_name r = Some rs ->
  Hub.files rs !! "LICENSE" = None ->
  Hub.files rs !! "README.md" = None ->
  exists c w1 rs1,
    upload_files_to_repo task_id r 1 w = (Ok c, w1)
    /\ w_hub w1 !! repo_name r = Some rs1
    /\ forall p,
         Hub.files rs1 !! p =
           match files !! p with
           | Some x => Some x
           | None =>
               if decide (p = "README.md") then Some (readme_content task_id)
               else if decide (p = "LICENSE") then Some "MIT License"
               else Hub.files rs !! p
           end.
Proof.
  intros Hd Hr Hl Hm. unfold upload_files_to_repo. simpl.
  unfold bind at 1 2. rewrite hub_create_file_run.
  unfold Hub.create_file at 1 2. rewrite Hr, Hl. simpl.
  rewrite hub_create_file_run. unfold Hub.create_file at 1 2. simpl.
  rewrite lookup_insert_eq. simpl. rewrite lookup_insert_ne by done. rewrite Hm. simpl.
  rewrite insert_insert_eq.
  set (rsb := Hub.push "Add README" "README.md" _ _).
  set (wb := World _ _ _ _ _).
  unfold bind at 1, os_listdir. simpl. rewrite Hd.
  destruct (upload_loop_hub ("task-" +:+ task_id) r files _ rsb wb Hd (listdir_names files))
    as (rs1 & evs & Hloop & Hfiles & Hlen).
  { simpl. apply lookup_insert_eq. }
  rewrite (bind_ok _ _ _ _ _ Hloop). unfold bind. rewrite hub_get_commits_run.
  simpl. unfold Hub.get_commits. simpl. rewrite lookup_insert_eq.
  destruct (Hub.commits rs1) as [|c1 cs] eqn:Hcs; [simpl in Hlen; lia|].
  simpl. eexists c1, _, rs1. split; [reflexivity|]. simpl.
  rewrite lookup_insert_eq. split; [done|].
  intros p. rewrite Hfiles. destruct (files !! p) as [x|] eqn:Hp.
  - rewrite decide_True; [done|]. apply listdir_elem. by eexists.
  - rewrite decide_False by (intros [x Hx]%listdir_elem; congruence).
    simpl. destruct (decide (p = "README.md")) as [->|?];
      [by rewrite lookup_insert_eq|rewrite lookup_insert_ne by done].
    destruct (decide (p = "LICENSE")) as [->|?];
      [by rewrite lookup_insert_eq|by rewrite lookup_insert_ne].
Qed.

(** Publishing to a repository that does not exist raises the 404 of the
    store, on any round and whatever the local files, and the store is left
    as it was. *)
Theorem upload_files_no_repo task_id r round_num files w :
  w_fs w !! ("task-" +:+ task_id) = Some files ->
  w_hub w !! repo_name r = None ->
  exists w',
    upload_files_to_repo task_id r round_num w = (Raise (GithubException 404), w')
    /\ w_hub w' = w_hub w /\ w_fs w' = w_fs w.
Proof.
  intros Hd Hr. unfold upload_files_to_repo.
  destruct (round_num =? 1).
  - unfold bind at 1 2. rewrite hub_create_file_run.
    unfold Hub.create_file. rewrite Hr. simpl. by eexists.
  - unfold bind at 1, ret. unfold bind at 1, os_listdir. rewrite Hd.
    destruct (map_to_list files).*1 as [|f names] eqn:Hnames.
    + eexists. split.
      { simpl. rewrite (bind_ok _ _ w tt w) by done. apply bind_raise.
        rewrite hub_get_commits_run. unfold Hub.get_commits. rewrite Hr. simpl.
        reflexivity. }
      done.
    + assert (Hf : is_Some (files !! f)).
      { apply listdir_elem. rewrite Hnames. by left. }
      destruct Hf as [content Hf].
      eexists. split.
      { apply bind_raise. simpl. apply bind_raise.
        unfold upload_file, bind at 1, file_read. rewrite Hd, Hf.
        unfold try_except, bind, hub_get_contents, hub_create_file.
        rewrite !hub_op_run. simpl. unfold Hub.get_contents. rewrite Hr. simpl.
        rewrite hub_op_run. simpl. unfold Hub.create_file. rewrite Hr. simpl.
        reflexivity. }
      done.
Qed.

End PublishOutcomes.

Lemma upload_files_postcondition_witness :
  exists rs1,
    w_hub (snd (upload_files_to_repo "t1" (Hub.handle "task-t1") 1 world_after_round1))
      !! "task-t1" = Some rs1
    /\ Hub.files rs1 !! "index.html" = Some "<h1>v1</h1>"
    /\ head (Hub.commits rs1) = Some (Commit "c2" "Add index.html").
Proof.
  destruct (upload_files_postcondition "t1" (Hub.handle "task-t1") 1 world_after_round1
              (Commit "c2" "Add index.html")
              (snd (upload_files_to_repo "t1" (Hub.handle "task-t1") 1 world_after_round1)))
    as (files & rs & rs1 & Hd & _ & _ & Hr1 & Hsync & _ & _ & Hhead).
  - vm_compute. reflexivity.
  - exists rs1. split; [exact Hr1|]. split; [|exact Hhead].
    apply Hsync. vm_compute in Hd. injection Hd as <-. reflexivity.
Defined.

Lemma upload_files_first_round_witness :
  exists c w1 rs1,
    upload_files_to_repo "t1" (Hub.handle "task-t1") 1 world_after_round1 = (Ok c, w1)
    /\ w_hub w1 !! "task-t1" = Some rs1
    /\ Hub.files rs1 !! "LICENSE" = Some "MIT License"
    /\ Hub.files rs1 !! "index.html" = Some "<h1>v1</h1>".
Proof.
  destruct (upload_files_first_round "t1" (Hub.handle "task-t1")
              {[ "index.html" := "<h1>v1</h1>" ]} (Hub.RepoState ∅ []) world_after_round1)
    as (c & w1 & rs1 & Hrun & Hr1 & Hfiles); try reflexivity.
  exists c, w1, rs1. split; [exact Hrun|]. split; [exact Hr1|].
  split; rewrite Hfiles; reflexivity.
Defined.

Lemma upload_files_no_repo_witness :
  exists w',
    upload_files_to_repo "t1" (Hub.handle "task-t1") 2
      (World {[ "task-t1" := {[ "index.html" := "<h1>v1</h1>" ]} ]} ∅ ∅ 0 [])
      = (Raise (GithubException 404), w')
    /\ w_hub w' = ∅.
Proof.
  destruct (upload_files_no_repo "t1" (Hub.handle "task-t1") 2
              {[ "index.html" := "<h1>v1</h1>" ]}
              (World {[ "task-t1" := {[ "index.html" := "<h1>v1</h1>" ]} ]} ∅ ∅ 0 []))
    as (w' & Hrun & Hhub & _); try reflexivity.
  exists w'. split; [exact Hrun|exact Hhub].
Defined.

Lemma upload_files_rerun_later_rounds_witness :
  exists c' w2 evs,
    upload_files_to_repo "t1" (Hub.handle "task-t1") 2
      (snd (upload_files_to_repo "t1" (Hub.handle "task-t1") 2 world_after_round1))
      = (Ok c', w2)
    /\ created_paths evs = []
    /\ updated_paths evs = ["index.html"].
Proof.
  destruct (upload_files_rerun_later_rounds "t1" (Hub.handle "task-t1") 2 world_after_round1
              (Commit "c0" "Add index.html")
              (snd (upload_files_to_repo "t1" (Hub.handle "task-t1") 2 world_after_round1)))
    as (c' & w2 & evs & Hrun & _ & _ & Hcr & Hup).
  - lia.
  - vm_compute. reflexivity.
  - exists c', w2, evs. split; [exact Hrun|]. split; [exact Hcr|].
    rewrite (Hup {[ "index.html" := "<h1>v1</h1>" ]}); reflexivity.
Defined.

(** ** More on the hosting publisher *)

Section MoreHosting.

Context {G : Type}.
Variable E : environment.

Lemma enable_pages_unfold repo (w : world G) :
  let url := pages_url_of repo in
  let enable := HttpPost url (PagesSource "main" "/") in
  enable_pages E repo w =
    match http_send E (w_nreq w) enable with
    | Ok r1 =>
        if status_code r1 =? 201 then
          (time_sleep 10 >> response_html_url r1)
            (World (w_fs w) (w_heap w) (w_hub w) (S (w_nreq w))
                   (w_trace w ++ [EvHttp enable]))
        else
          match http_send E (S (w_nreq w)) (HttpGet url) with
          | Ok r2 =>
              if status_code r2 =? 200 then
                response_html_url r2
                  (World (w_fs w) (w_heap w) (w_hub w) (S (S (w_nreq w)))
                         (w_trace w ++ [EvHttp enable; EvHttp (HttpGet url)]))
              else
                (Ok PNone,
                 World (w_fs w) (w_heap w) (w_hub w) (S (S (w_nreq w)))
                       (w_trace w ++ [EvHttp enable; EvHttp (HttpGet url)]))
          | Raise e =>
              (Raise e, World (w_fs w) (w_heap w) (w_hub w) (S (S (w_nreq w)))
                              (w_trace w ++ [EvHttp enable; EvHttp (HttpGet url)]))
          end
    | Raise e =>
        (Raise e, World (w_fs w) (w_heap w) (w_hub w) (S (w_nreq w))
                        (w_trace w ++ [EvHttp enable]))
    end.
Proof.
  intros url enable.
  unfold enable_pages. fold (pages_url_of repo). fold url.
  unfold bind at 1, requests_post, http. fold enable.
  destruct (http_send E (w_nreq w) enable) as [r1|e]; [|done].
  destruct (status_code r1 =? 201); [done|].
  unfold bind, requests_get, http. simpl.
  rewrite <- app_assoc. simpl.
  destruct (http_send E (S (w_nreq w)) (HttpGet url)) as [r2|e]; [|done].
  by destruct (status_code r2 =? 200).
Qed.

(** When the enable request is answered 201, [enable_pages] sleeps for 10
    and makes no status read.  With a JSON object as the body of the
    answer it then returns the [html_url] of that object ([None] when the
    object has no such field); with a body that is not JSON it raises
    [JSONDecodeError], and with a JSON body that is not an object it
    raises [AttributeError], both after the sleep. *)
Theorem enable_pages_fresh repo r1 (w : world G) :
  let url := pages_url_of repo in
  let enable := HttpPost url (PagesSource "main" "/") in
  http_send E (w_nreq w) enable = Ok r1 ->
  status_code r1 = 201 ->
  enable_pages E repo w =
    (match resp_body r1 with
     | JsonObject body => Ok (dict_get body "html_url")
     | JsonOther => Raise AttributeError
     | NotJson => Raise JSONDecodeError
     end,
     World (w_fs w) (w_heap w) (w_hub w) (S (w_nreq w))
           (w_trace w ++ [EvHttp enable; EvSleep 10])).
Proof.
  intros url enable Hpost Hstatus.
  rewrite enable_pages_unfold. fold url. fold enable. cbv zeta.
  rewrite Hpost, Hstatus. simpl.
  unfold bind, time_sleep, log, response_html_url. simpl.
  rewrite <- app_assoc. by destruct (resp_body r1).
Qed.

(** When the enable request is answered with another status (hosting is
    already enabled, say) and the status read is answered 200 with a JSON
    object, [enable_pages] returns the [html_url] of the status read,
    without sleeping. *)
Theorem enable_pages_fallback repo r1 r2 body (w : world G) :
  let url := pages_url_of repo in
  let enable := HttpPost url (PagesSource "main" "/") in
  http_send E (w_nreq w) enable = Ok r1 ->
  status_code r1 <> 201 ->
  http_send E (S (w_nreq w)) (HttpGet url) = Ok r2 ->
  status_code r2 = 200 ->
  resp_json r2 = Some body ->
  enable_pages E repo w =
    (Ok (dict_get body "html_url"),
     World (w_fs w) (w_heap w) (w_hub w) (S (S (w_nreq w)))
           (w_trace w ++ [EvHttp enable; EvHttp (HttpGet url)])).
Proof.
  intros url enable Hpost Hs1 Hget Hs2 Hbody.
  rewrite enable_pages_unfold. fold url. fold enable. cbv zeta.
  rewrite Hpost. destruct (Z.eqb_spec (status_code r1) 201); [done|].
  rewrite Hget, Hs2. simpl. unfold response_html_url.
  unfold resp_json in Hbody. destruct (resp_body r2); by simplify_eq.
Qed.

(** However it ends, [enable_pages] sends one or two requests, the first
    of them the enable request, and touches neither the files, nor the
    heap, nor the store. *)
Theorem enable_pages_frame repo (w : world G) r w' :
  enable_pages E repo w = (r, w') ->
  w_fs w' = w_fs w /\ w_heap w' = w_heap w /\ w_hub w' = w_hub w
  /\ exists evs,
       w_trace w' = w_trace w ++ evs
       /\ head (posts evs) = Some (HttpPost (pages_url_of repo) (PagesSource "main" "/"))
       /\ (1 <= length (posts evs) <= 2)%nat
       /\ w_nreq w' = (w_nreq w + length (posts evs))%nat.
Proof.
  rewrite enable_pages_unfold. cbv zeta.
  set (enable := HttpPost _ _). set (get := HttpGet _).
  destruct (http_send E (w_nreq w) enable) as [r1|e].
  - destruct (status_code r1 =? 201).
    + unfold bind, time_sleep, log, response_html_url, ret, raise. simpl.
      rewrite <- app_assoc. simpl.
      destruct (resp_body r1); intros [= <- <-]; simpl;
        (repeat split; try done; eexists; split; [reflexivity|]; simpl;
         repeat split; try done; lia).
    + destruct (http_send E (S (w_nreq w)) get) as [r2|e].
      * unfold response_html_url, ret, raise.
        destruct (status_code r2 =? 200); [destruct (resp_body r2)|];
          intros [= <- <-]; simpl;
          (repeat split; try done; eexists; split; [reflexivity|]; simpl;
           repeat split; try done; lia).
      * intros [= <- <-]. simpl.
        repeat split; try done. eexists. split; [reflexivity|]. simpl.
        repeat split; try done; lia.
  - intros [= <- <-]. simpl.
    repeat split; try done. eexists. split; [reflexivity|]. simpl.
    repeat split; try done; lia.
Qed.

End MoreHosting.

Lemma enable_pages_fresh_witness :
  fst (enable_pages (env_of "{}" peer_live) (Hub.handle "task-t1") (demo_world tt))
    = Ok (PStr "https://owner.github.io/task-t1/")
  /\ fst (enable_pages (env_of "{}" peer_created_list) (Hub.handle "task-t1")
            (demo_world tt))
     = Raise AttributeError.
Proof.
  split.
  - rewrite (enable_pages_fresh (env_of "{}" peer_live) (Hub.handle "task-t1")
               (Response 201
                  (JsonObject {[ "html_url" := PStr "https://owner.github.io/task-t1/" ]}))
               (demo_world tt)); reflexivity.
  - rewrite (enable_pages_fresh (env_of "{}" peer_created_list) (Hub.handle "task-t1")
               (Response 201 JsonOther) (demo_world tt)); reflexivity.
Defined.

Lemma enable_pages_fallback_witness :
  fst (enable_pages (env_of "{}" peer_already_enabled) (Hub.handle "task-t1")
         (demo_world tt))
    = Ok (PStr "https://owner.github.io/task-t1/").
Proof.
  rewrite (enable_pages_fallback (env_of "{}" peer_already_enabled)
             (Hub.handle "task-t1") (Response 409 NotJson)
             (Response 200 (JsonObject {[ "html_url" := PStr "https://owner.github.io/task-t1/" ]}))
             {[ "html_url" := PStr "https://owner.github.io/task-t1/" ]} (demo_world tt));
    try reflexivity.
  simpl. lia.
Defined.

Lemma enable_pages_frame_witness :
  w_hub (snd (enable_pages (env_of "{}" peer_pages_lost) (Hub.handle "task-t1")
                (demo_world tt))) = tt
  /\ w_nreq (snd (enable_pages (env_of "{}" peer_pages_lost) (Hub.handle "task-t1")
                    (demo_world tt))) = 2%nat.
Proof.
  destruct (enable_pages_frame (env_of "{}" peer_pages_lost) (Hub.handle "task-t1")
              (demo_world tt)
              (fst (enable_pages (env_of "{}" peer_pages_lost) (Hub.handle "task-t1")
                      (demo_world tt)))
              (snd (enable_pages (env_of "{}" peer_pages_lost) (Hub.handle "task-t1")
                      (demo_world tt)))) as (_ & _ & Hhub & _).
  - by destruct (enable_pages _ _ _).
  - split; [exact Hhub|reflexivity].
Defined.

(** ** More on the notifier *)

Section MoreNotifier.

Context {G : Type}.
Variable E : environment.

(** After [i] failed attempts the loop is where it would be had it
    started there, [i] requests and [i] sleeps later. *)
Lemma notify_attempts_skip url l d : forall i n delay (w : world G),
  w_heap w !! l = Some d ->
  (forall j, (j < i)%nat ->
     attempt_fails (http_send E (w_nreq w + j) (HttpPost url (DictBody d)))) ->
  exists evs delay',
    notify_attempts E (i + n) url l delay w =
      notify_attempts E n url l delay'
        (World (w_fs w) (w_heap w) (w_hub w) (w_nreq w + i) (w_trace w ++ evs))
    /\ strip_prints evs = backoff i (HttpPost url (DictBody d)) delay.
Proof.
  induction i as [|i IH]; intros n delay w Hl Hfail.
  - exists [], delay. simpl. rewrite Nat.add_0_r, app_nil_r. by destruct w.
  - change (S i + n)%nat with (S (i + n)).
    rewrite (notify_attempts_step E (i + n) url l d delay w Hl). cbv zeta.
    set (req := HttpPost url (DictBody d)) in *.
    assert (Hnext : forall pre,
      strip_prints pre = [EvHttp req; EvSleep delay] ->
      exists evs delay',
        notify_attempts E (i + n) url l (delay * 2) (after_attempt w pre) =
          notify_attempts E n url l delay'
            (World (w_fs w) (w_heap w) (w_hub w) (w_nreq w + S i) (w_trace w ++ evs))
        /\ strip_prints evs = backoff (S i) req delay).
    { intros pre Hpre.
      destruct (IH n (delay * 2) (after_attempt w pre) Hl) as (evs & delay' & Hrun & Hevs).
      { intros j Hj.
        replace (w_nreq (after_attempt w pre) + j)%nat with (w_nreq w + S j)%nat
          by (simpl; lia).
        apply Hfail. lia. }
      exists (pre ++ evs), delay'. rewrite Hrun. simpl.
      rewrite strip_prints_app, Hpre, Hevs, <- app_assoc. split; [|done].
      do 2 f_equal. lia. }
    pose proof (Hfail O ltac:(lia)) as H0. rewrite Nat.add_0_r in H0.
    destruct (http_send E (w_nreq w) req) as [r|e]; simpl in H0.
    + destruct (Z.eqb_spec (status_code r) 200); [done|]. by apply Hnext.
    + destruct e; try done. by apply Hnext.
Qed.

(** When attempt [i] is the first to be answered 200, the notifier has
    slept 1, 2, ... between the attempts before it and does not sleep after
    it: the trace is the [i] failed attempts with their sleeps, then the
    successful POST. *)
Theorem notify_evaluation_success_trace l d url i r200 (w : world G) :
  w_heap w !! l = Some d ->
  d !! "evaluation_url" = Some url ->
  truthy url = true ->
  let req := HttpPost url (DictBody (delete "evaluation_url" d)) in
  (i < 4)%nat ->
  (forall j, (j < i)%nat -> attempt_fails (http_send E (w_nreq w + j) req)) ->
  http_send E (w_nreq w + i) req = Ok r200 ->
  status_code r200 = 200 ->
  exists w' evs,
    notify_evaluation E l w = (Ok tt, w')
    /\ w_trace w' = w_trace w ++ evs
    /\ strip_prints evs = backoff i req 1 ++ [EvHttp req].
Proof.
  intros Hl Hurl Ht req Hi Hfail Hok H200.
  rewrite (notify_evaluation_unfold E l d url w Hl Hurl Ht).
  set (d' := delete "evaluation_url" d) in *.
  set (w1 := set_heap (<[l := d']> (w_heap w)) w).
  assert (Hl1 : w_heap w1 !! l = Some d') by (simpl; apply lookup_insert_eq).
  destruct (notify_attempts_skip url l d' i (4 - i) 1 w1 Hl1 Hfail)
    as (evs & delay' & Hrun & Hevs).
  replace (i + (4 - i))%nat with 4%nat in Hrun by lia. rewrite Hrun.
  destruct (4 - i)%nat as [|n] eqn:Hn; [lia|].
  set (wi := World _ _ _ _ _).
  assert (Hli : w_heap wi !! l = Some d') by exact Hl1.
  rewrite (notify_attempts_step E n url l d' delay' wi Hli). cbv zeta.
  change (w_nreq wi) with (w_nreq w + i)%nat. fold req. rewrite Hok, H200. simpl.
  eexists _, (evs ++ [EvHttp req; EvPrint "Evaluation notification sent successfully."]).
  split; [reflexivity|]. simpl. rewrite <- app_assoc. split; [done|].
  by rewrite strip_prints_app, Hevs.
Qed.

(** An exception of the transport that is not a [RequestException] is not
    retried: raised by attempt [i], it leaves [notify_evaluation] at once,
    with the callback entry already removed from the caller's payload. *)
Theorem notify_evaluation_other_exception l d url i e (w : world G) :
  w_heap w !! l = Some d ->
  d !! "evaluation_url" = Some url ->
  truthy url = true ->
  let req := HttpPost url (DictBody (delete "evaluation_url" d)) in
  (i < 4)%nat ->
  (forall j, (j < i)%nat -> attempt_fails (http_send E (w_nreq w + j) req)) ->
  http_send E (w_nreq w + i) req = Raise e ->
  (forall msg, e <> RequestException msg) ->
  exists w' evs,
    notify_evaluation E l w = (Raise e, w')
    /\ w_trace w' = w_trace w ++ evs
    /\ strip_prints evs = backoff i req 1 ++ [EvHttp req]
    /\ w_heap w' !! l = Some (delete "evaluation_url" d).
Proof.
  intros Hl Hurl Ht req Hi Hfail Hraise He.
  rewrite (notify_evaluation_unfold E l d url w Hl Hurl Ht).
  set (d' := delete "evaluation_url" d) in *.
  set (w1 := set_heap (<[l := d']> (w_heap w)) w).
  assert (Hl1 : w_heap w1 !! l = Some d') by (simpl; apply lookup_insert_eq).
  destruct (notify_attempts_skip url l d' i (4 - i) 1 w1 Hl1 Hfail)
    as (evs & delay' & Hrun & Hevs).
  replace (i + (4 - i))%nat with 4%nat in Hrun by lia. rewrite Hrun.
  destruct (4 - i)%nat as [|n] eqn:Hn; [lia|].
  set (wi := World _ _ _ _ _).
  assert (Hli : w_heap wi !! l = Some d') by exact Hl1.
  rewrite (notify_attempts_step E n url l d' delay' wi Hli). cbv zeta.
  change (w_nreq wi) with (w_nreq w + i)%nat. fold req. rewrite Hraise.
  assert (Hout : exists w' evs',
    (Raise e, after_attempt wi [EvHttp req]) = (Raise e : result unit, w')
    /\ w_trace w' = w_trace w ++ evs'
    /\ strip_prints evs' = backoff i req 1 ++ [EvHttp req]
    /\ w_heap w' !! l = Some d').
  { eexists _, (evs ++ [EvHttp req]). split; [reflexivity|]. simpl.
    rewrite <- app_assoc. split; [done|]. split; [|exact Hl1].
    by rewrite strip_prints_app, Hevs. }
  destruct e; try exact Hout. by destruct (He msg).
Qed.

End MoreNotifier.

Lemma notify_evaluation_success_trace_witness :
  exists w' evs,
    notify_evaluation (env_of "{}" peer_third) 0%nat (demo_world tt) = (Ok tt, w')
    /\ w_trace w' = evs
    /\ strip_prints evs =
         [EvHttp (HttpPost (PStr "https://eval.example/cb")
                    (DictBody (delete "evaluation_url" demo_payload)));
          EvSleep 1;
          EvHttp (HttpPost (PStr "https://eval.example/cb")
                    (DictBody (delete "evaluation_url" demo_payload)));
          EvSleep 2;
          EvHttp (HttpPost (PStr "https://eval.example/cb")
                    (DictBody (delete "evaluation_url" demo_payload)))].
Proof.
  destruct (notify_evaluation_success_trace (env_of "{}" peer_third) 0%nat demo_payload
              (PStr "https://eval.example/cb") 2 (Response 200 NotJson) (demo_world tt))
    as (w' & evs & Hrun & Htr & Hevs).
  - reflexivity.
  - vm_compute. reflexivity.
  - reflexivity.
  - lia.
  - intros j Hj. destruct j as [|[|j]]; [simpl; lia|simpl; lia|lia].
  - reflexivity.
  - reflexivity.
  - exists w', evs. split; [exact Hrun|]. split; [exact Htr|exact Hevs].
Defined.

Lemma notify_evaluation_other_exception_witness :
  exists w',
    notify_evaluation (env_of "{}" peer_broken) 0%nat (demo_world tt) = (Raise TypeError, w')
    /\ w_heap w' !! 0%nat = Some (delete "evaluation_url" demo_payload).
Proof.
  destruct (notify_evaluation_other_exception (env_of "{}" peer_broken) 0%nat demo_payload
              (PStr "https://eval.example/cb") 0 TypeError (demo_world tt))
    as (w' & evs & Hrun & _ & _ & Hheap).
  - reflexivity.
  - vm_compute. reflexivity.
  - reflexivity.
  - lia.
  - intros j Hj. lia.
  - reflexivity.
  - intros msg. discriminate.
  - exists w'. split; [exact Hrun|exact Hheap].
Defined.

(** ** The orchestration *)

Section Orchestration.

Context {G : Type} `{GithubClient G}.
Variable E : environment.

Lemma payload_callback_url (data : task_request) repo c pages :
  (list_to_map [
      ("email", email data);
      ("task", PStr (task data));
      ("round", PInt (round data));
      ("nonce", nonce data);
      ("repo_url", PStr (html_url repo));
      ("commit_sha", PStr (sha c));
      ("pages_url", pages);
      ("evaluation_url", evaluation_url data)
    ] : gmap string pyval) !! "evaluation_url" = Some (evaluation_url data).
Proof.
  simpl. rewrite !lookup_insert_ne by done. apply lookup_insert_eq.
Qed.

Lemma payload_without_callback_url (data : task_request) repo c pages :
  delete "evaluation_url"
    (list_to_map [
      ("email", email data);
      ("task", PStr (task data));
      ("round", PInt (round data));
      ("nonce", nonce data);
      ("repo_url", PStr (html_url repo));
      ("commit_sha", PStr (sha c));
      ("pages_url", pages);
      ("evaluation_url", evaluation_url data)
    ] : gmap string pyval) = notification_body data repo c pages.
Proof.
  unfold notification_body. simpl.
  rewrite !delete_insert_ne by done. by rewrite delete_insert_eq, delete_empty.
Qed.

(** When the four stages before it have returned, [process_request]
    notifies with what they produced: every callback request is a POST to
    the request's callback URL whose body holds the echoed email and nonce,
    the task, the round, the repository URL, the hash of the commit that
    the publish returned and the hosting URL, and not the callback URL
    itself; without a callback URL nothing is sent and the run ends
    normally. *)
Theorem process_request_notification data repo c pages (w w1 w2 w3 w4 : world G) :
  generate_app E (brief data) (attachments data) (task data) (round data) w = (Ok tt, w1) ->
  ensure_repository (task data) (round data) w1 = (Ok repo, w2) ->
  upload_files_to_repo (task data) repo (round data) w2 = (Ok c, w3) ->
  enable_pages E repo w3 = (Ok pages, w4) ->
  exists r w5 evs,
    process_request E data w = (r, w5)
    /\ w_trace w5 = w_trace w4 ++ evs
    /\ (truthy (evaluation_url data) = false -> r = Ok tt /\ evs = [])
    /\ (truthy (evaluation_url data) = true ->
        (1 <= length (posts evs) <= 4)%nat
        /\ posts evs =
             replicate (length (posts evs))
               (HttpPost (evaluation_url data)
                         (DictBody (notification_body data repo c pages)))).
Proof.
  intros Hgen Hrepo Hup Hpages. unfold process_request.
  rewrite (bind_ok _ _ _ _ _ Hgen), (bind_ok _ _ _ _ _ Hrepo),
          (bind_ok _ _ _ _ _ Hup), (bind_ok _ _ _ _ _ Hpages).
  unfold bind at 1, new_dict.
  set (payload := list_to_map _).
  set (l := fresh (dom (w_heap w4))).
  set (w4' := set_heap (<[l := payload]> (w_heap w4)) w4).
  assert (Hl : w_heap w4' !! l = Some payload) by (simpl; apply lookup_insert_eq).
  pose proof (payload_callback_url data repo c pages) as Hurl. fold payload in Hurl.
  destruct (truthy (evaluation_url data)) eqn:Ht.
  - destruct (notify_evaluation_run E l payload (evaluation_url data) w4' Hl Hurl Ht)
      as (r & evs & Hrun & Hposts & Hlen).
    cbv zeta in Hrun, Hposts.
    unfold payload in Hposts. rewrite payload_without_callback_url in Hposts.
    eexists r, _, evs. split; [exact Hrun|]. split; [done|]. split; [done|].
    intros _. by split.
  - assert (Hrun : notify_evaluation E l w4' = (Ok tt, w4')).
    { unfold notify_evaluation, bind, ref_get. rewrite Hl.
      unfold dict_get. rewrite Hurl. simpl. by rewrite Ht. }
    eexists (Ok tt), _, []. split; [exact Hrun|]. simpl.
    rewrite app_nil_r. by repeat split.
Qed.

(** [process_request] catches nothing: an exception raised by the
    generation, by the acquisition of the repository, by the publish or by
    the enabling of hosting ends the run there, with the world as that
    stage left it, so that nothing later runs and no notification is
    sent. *)
Theorem process_request_stage_failure data e (w w1 : world G) :
  (generate_app E (brief data) (attachments data) (task data) (round data) w
     = (Raise e, w1) ->
   process_request E data w = (Raise e, w1))
  /\ (forall w2,
      generate_app E (brief data) (attachments data) (task data) (round data) w
        = (Ok tt, w1) ->
      ensure_repository (task data) (round data) w1 = (Raise e, w2) ->
      process_request E data w = (Raise e, w2))
  /\ (forall repo w2 w3,
      generate_app E (brief data) (attachments data) (task data) (round data) w
        = (Ok tt, w1) ->
      ensure_repository (task data) (round data) w1 = (Ok repo, w2) ->
      upload_files_to_repo (task data) repo (round data) w2 = (Raise e, w3) ->
      process_request E data w = (Raise e, w3))
  /\ (forall repo c w2 w3 w4,
      generate_app E (brief data) (attachments data) (task data) (round data) w
        = (Ok tt, w1) ->
      ensure_repository (task data) (round data) w1 = (Ok repo, w2) ->
      upload_files_to_repo (task data) repo (round data) w2 = (Ok c, w3) ->
      enable_pages E repo w3 = (Raise e, w4) ->
      process_request E data w = (Raise e, w4)).
Proof.
  unfold process_request. split; [|split; [|split]].
  - intros Hgen. by apply bind_raise.
  - intros w2 Hgen Hrepo. rewrite (bind_ok _ _ _ _ _ Hgen). by apply bind_raise.
  - intros repo w2 w3 Hgen Hrepo Hup.
    rewrite (bind_ok _ _ _ _ _ Hgen), (bind_ok _ _ _ _ _ Hrepo). by apply bind_raise.
  - intros repo c w2 w3 w4 Hgen Hrepo Hup Hpages.
    rewrite (bind_ok _ _ _ _ _ Hgen), (bind_ok _ _ _ _ _ Hrepo),
            (bind_ok _ _ _ _ _ Hup).
    by apply bind_raise.
Qed.

End Orchestration.

Section OrchestrationOnHub.

Variable E : environment.

(** A revision round for a task whose repository does not exist is not
    handled: once the document is generated, the fetch by name raises the
    404 of the store and the run ends there, without creating the
    repository, publishing or notifying. *)
Theorem process_request_missing_repository data (w w1 : world hubs) :
  round data <> 1 ->
  generate_app E (brief data) (attachments data) (task data) (round data) w = (Ok tt, w1) ->
  w_hub w1 !! ("task-" +:+ task data) = None ->
  process_request E data w =
    (Raise (GithubException 404),
     logged [EvHub (GetRepo ("task-" +:+ task data))] w1).
Proof.
  intros Hround Hgen Hr. unfold process_request.
  rewrite (bind_ok _ _ _ _ _ Hgen). apply bind_raise.
  unfold ensure_repository. destruct (Z.eqb_spec (round data) 1); [done|].
  unfold hub_get_repo. rewrite hub_op_run. simpl.
  unfold Hub.get_repo. by rewrite Hr.
Qed.

End OrchestrationOnHub.

Lemma process_request_notification_witness :
  exists r w5 evs,
    process_request (env_of html_reply peer_live) (demo_request 1 []) fresh_world = (r, w5)
    /\ (1 <= length (posts evs) <= 4)%nat
    /\ posts evs =
         replicate (length (posts evs))
           (HttpPost (PStr "https://eval.example/cb")
              (DictBody (notification_body (demo_request 1 []) (Hub.handle "task-t1")
                           (Commit "c2" "Add index.html")
                           (PStr "https://owner.github.io/task-t1/")))).
Proof.
  pose (E := env_of html_reply peer_live).
  pose (w1 := snd (generate_app E "a clock" [] "t1" 1 fresh_world)).
  pose (w2 := snd (ensure_repository "t1" 1 w1)).
  pose (w3 := snd (upload_files_to_repo "t1" (Hub.handle "task-t1") 1 w2)).
  pose (w4 := snd (enable_pages E (Hub.handle "task-t1") w3)).
  destruct (process_request_notification E (demo_request 1 []) (Hub.handle "task-t1")
              (Commit "c2" "Add index.html") (PStr "https://owner.github.io/task-t1/")
              fresh_world w1 w2 w3 w4) as (r & w5 & evs & Hrun & _ & _ & Hsent).
  - vm_compute. reflexivity.
  - vm_compute. reflexivity.
  - vm_compute. reflexivity.
  - vm_compute. reflexivity.
  - destruct (Hsent eq_refl) as [Hlen Hposts].
    exists r, w5, evs. split; [exact Hrun|]. split; [exact Hlen|exact Hposts].
Defined.

Lemma process_request_stage_failure_witness :
  fst (process_request env_service_down (demo_request 1 []) fresh_world) = Raise OpenAIError.
Proof.
  destruct (process_request_stage_failure env_service_down (demo_request 1 []) OpenAIError
              fresh_world
              (snd (generate_app env_service_down "a clock" [] "t1" 1 fresh_world)))
    as [Hgen _].
  rewrite Hgen; reflexivity.
Defined.

Lemma process_request_missing_repository_witness :
  fst (process_request (env_of html_reply peer_live) (demo_request 2 [])
         (World {[ "task-t1" := {[ "index.html" := "<h1>v1</h1>" ]} ]} ∅ ∅ 0 []))
    = Raise (GithubException 404).
Proof.
  rewrite (process_request_missing_repository (env_of html_reply peer_live)
             (demo_request 2 [])
             (World {[ "task-t1" := {[ "index.html" := "<h1>v1</h1>" ]} ]} ∅ ∅ 0 [])
             (snd (generate_app (env_of html_reply peer_live) "a clock" [] "t1" 2
                     (World {[ "task-t1" := {[ "index.html" := "<h1>v1</h1>" ]} ]}
                            ∅ ∅ 0 [])))).
  - reflexivity.
  - simpl. lia.
  - vm_compute. reflexivity.
  - vm_compute. reflexivity.
Defined.

Lemma generate_app_malformed_reply_witness :
  exists w',
    generate_app (env_of "not json" peer_live) "a clock" [] "t1" 1 fresh_world = (Ok tt, w')
    /\ document_of "t1" w' = Some fallback_html.
Proof.
  apply (generate_app_malformed_reply (env_of "not json" peer_live) "a clock" [] "t1" 1
           (base_prompt "a clock") "not json" fresh_world
           (snd (os_makedirs "task-t1" fresh_world))); reflexivity.
Defined.

(** Whenever [generate_app] returns normally a document is in place in
    the task directory: the one it just wrote. *)
Theorem generate_app_leaves_document {G} (E : environment) brief atts task_id round_num
    (w w' : world G) :
  generate_app E brief atts task_id round_num w = (Ok tt, w') ->
  is_Some (document_of task_id w').
Proof.
  intros Hrun. pose proof Hrun as Hrun0. revert Hrun0.
  unfold generate_app. set (d := "task-" +:+ task_id).
  destruct (os_makedirs_run d w) as (Hmk & Hd0 & _).
  rewrite (bind_ok _ _ _ _ _ Hmk). unfold bind at 1.
  destruct (for_each atts _ _) as [[[]|e] w1] eqn:Hatt; [|done].
  unfold bind at 1.
  destruct (build_prompt brief d round_num w1) as [[prompt|e] w1'] eqn:Hprompt; [|done].
  pose proof (build_prompt_frame _ _ _ _ _ _ Hprompt) as ->. intros _.
  rewrite (generate_app_tail E _ _ _ _ _ _ _ Hatt Hprompt) in Hrun. fold d in Hrun.
  destruct (chat_completion E prompt) as [content|e]; [|done].
  destruct (parse_html_pure E content (logged [EvChat prompt] w1)) as [[v|e] Hparse].
  - rewrite (bind_ok _ _ _ _ _ Hparse) in Hrun.
    destruct (attachments_frame E _ _ _ _ _ Hatt) as [_ Hd].
    destruct (Hd Hd0) as [files Hfiles].
    revert Hrun. unfold file_write_text, bind, file_write, raise.
    destruct v as [| | |s| |]; simpl; rewrite ?Hfiles; try done.
    destruct (valid_utf8 s); simpl; rewrite Hfiles; [|done]. intros [= <-].
    unfold document_of. fold d. simpl. rewrite lookup_insert_eq, lookup_insert_eq.
    by eexists.
  - by rewrite (bind_raise _ _ _ _ _ Hparse) in Hrun.
Qed.

Lemma generate_app_leaves_document_witness :
  is_Some (document_of "t1"
             (snd (generate_app (env_of html_reply peer_live) "a clock" [] "t1" 1
                     fresh_world))).
Proof.
  apply (generate_app_leaves_document (env_of html_reply peer_live) "a clock" [] "t1" 1
           fresh_world).
  vm_compute. reflexivity.
Defined.

Lemma generate_app_revises_previous_witness :
  exists doc r w2,
    document_of "t1"
      (snd (generate_app (env_of html_reply peer_live) "a clock" [] "t1" 1 fresh_world))
      = Some doc
    /\ generate_app (env_of html_reply peer_live) "a faster clock" [] "t1" 2
         (snd (generate_app (env_of html_reply peer_live) "a clock" [] "t1" 1 fresh_world))
       = (r, w2)
    /\ w_trace w2 =
         w_trace (snd (generate_app (env_of html_reply peer_live) "a clock" [] "t1" 1
                         fresh_world))
         ++ [EvChat (base_prompt "a faster clock" +:+ nl
                     +:+ "**Existing HTML (for revision):**" +:+ nl +:+ "```html" +:+ nl
                     +:+ universal_newlines doc +:+ nl +:+ "```")]
    /\ (occurs cr doc = false -> universal_newlines doc = doc).
Proof.
  apply (generate_app_revises_previous (env_of html_reply peer_live) "a clock" [] 1
           "a faster clock" 2 "t1" fresh_world).
  - vm_compute. reflexivity.
  - lia.
Defined.
